(** * PlotView: data-file ingestion and terminal display

    A shallow embedding of [plot_view.go].  The source file holds two
    complete programs, one after the other:

    - lines 1-216: [readDataFromFile], [plotDataToSixel], a case-sensitive
      [isSixelSupported] (module [Prog1] below);
    - lines 217-527: [readData], [parseLine], [run], [displaySixel], a
      case-insensitive [isSixelSupported] (module [Prog2] below).

    Go strings are byte strings: [string] with one [ascii] per byte.
    [float64] is the kernel's binary64 type [float].  Go's [int] is a [Z]
    within the 64-bit range.  Library calls whose text is not part of the
    repository are either modelled from their documentation (the [strings]
    functions, module [GoStrings]) or taken as parameters (the class
    [GoLib], the record [World]). *)

From Stdlib Require Import Bool Arith ZArith NArith List Lia.
From Stdlib Require Import Ascii String.
From Stdlib Require Import Floats.
Import ListNotations.

Local Open Scope string_scope.
Local Open Scope list_scope.

(* ================================================================== *)
(** ** Go's [strings] and [unicode] functions used by the programs *)
(* ================================================================== *)

Module GoStrings.

(** The numeric value of a byte. *)
Definition code (c : ascii) : N := N_of_ascii c.

(** [s == t] on strings. *)
Definition streq (s t : string) : bool := String.eqb s t.

(** [len(s)]. *)
Definition len (s : string) : nat := String.length s.

(** The table [asciiSpace] of package [strings]:
    '\t', '\n', '\v', '\f', '\r' and ' '. *)
Definition asciiSpace (c : ascii) : bool :=
  let n := code c in
  ((9 <=? n) && (n <=? 13) || (n =? 32))%N.

(** [unicode.IsSpace], on the UTF-8 encoding: U+0085 and U+00A0 take two
    bytes (C2 85, C2 A0); U+1680, U+2000..U+200A, U+2028, U+2029, U+202F,
    U+205F and U+3000 take three. *)
Definition space2 (c0 c1 : ascii) : bool :=
  ((code c0 =? 0xC2) && ((code c1 =? 0x85) || (code c1 =? 0xA0)))%N.

Definition space3 (c0 c1 c2 : ascii) : bool :=
  let a := code c0 in
  let b := code c1 in
  let c := code c2 in
  ((a =? 0xE1) && (b =? 0x9A) && (c =? 0x80)
   || (a =? 0xE2) && (b =? 0x80)
      && ((0x80 <=? c) && (c <=? 0x8A) || (c =? 0xA8) || (c =? 0xA9) || (c =? 0xAF))
   || (a =? 0xE2) && (b =? 0x81) && (c =? 0x9F)
   || (a =? 0xE3) && (b =? 0x80) && (c =? 0x80))%N.

(** The number of bytes of the white-space rune the string starts with,
    0 when it starts with none.  A white-space rune is always a valid
    shortest-form encoding, so this is what decoding the first rune and
    testing it with [unicode.IsSpace] gives. *)
Definition spaceWidth (s : string) : nat :=
  match s with
  | String c0 r0 =>
      if asciiSpace c0 then 1
      else match r0 with
           | String c1 r1 =>
               if space2 c0 c1 then 2
               else match r1 with
                    | String c2 _ => if space3 c0 c1 c2 then 3 else 0
                    | EmptyString => 0
                    end
           | EmptyString => 0
           end
  | EmptyString => 0
  end.

(** A string cut at its white-space runes.  Bytes outside white space are
    kept one by one: no continuation byte (80..BF) begins a white-space
    rune, so passing over the bytes of another rune, or of an invalid
    sequence, one at a time meets the same white space as passing over
    it rune by rune. *)
Inductive piece : Type :=
| Sp (w : string)
| Ch (c : ascii).

Fixpoint scan (s : string) : list piece :=
  match s with
  | EmptyString => []
  | String c0 r0 =>
      match spaceWidth s, r0 with
      | 3, String c1 (String c2 r2) =>
          Sp (String c0 (String c1 (String c2 ""))) :: scan r2
      | 2, String c1 r1 => Sp (String c0 (String c1 "")) :: scan r1
      | 1, _ => Sp (String c0 "") :: scan r0
      | _, _ => Ch c0 :: scan r0
      end
  end.

Definition isSp (p : piece) : bool :=
  match p with Sp _ => true | Ch _ => false end.

Definition bytesOf (p : piece) : string :=
  match p with Sp w => w | Ch c => String c "" end.

Fixpoint unscan (l : list piece) : string :=
  match l with
  | [] => ""
  | p :: l' => bytesOf p ++ unscan l'
  end.

Fixpoint dropSp (l : list piece) : list piece :=
  match l with
  | Sp _ :: l' => dropSp l'
  | _ => l
  end.

(** [strings.TrimSpace]: "a slice of the string s, with all leading and
    trailing white space removed, as defined by Unicode". *)
Definition TrimSpace (s : string) : string :=
  unscan (rev (dropSp (rev (dropSp (scan s))))).

Definition startsCh (l : list piece) : bool :=
  match l with
  | Ch _ :: _ => true
  | _ => false
  end.

(** The fields of a cut string: the maximal runs of bytes between white
    space.  A byte followed by another byte joins the field that byte
    starts. *)
Fixpoint fieldsOf (l : list piece) : list string :=
  match l with
  | [] => []
  | Sp _ :: l' => fieldsOf l'
  | Ch c :: l' =>
      match startsCh l', fieldsOf l' with
      | true, f :: fs => String c f :: fs
      | _, fs => String c "" :: fs
      end
  end.

(** [strings.Fields]: "splits the string s around each instance of one or
    more consecutive white space characters, as defined by
    unicode.IsSpace, returning a slice of substrings of s or an empty
    slice if s contains only white space". *)
Definition Fields (s : string) : list string := fieldsOf (scan s).

(** [strings.HasPrefix]. *)
Definition HasPrefix (s pre : string) : bool := String.prefix pre s.

(** [strings.Contains]. *)
Fixpoint Contains (s sub : string) : bool :=
  String.prefix sub s
  || match s with
     | EmptyString => false
     | String _ r => Contains r sub
     end.

(** [s[i]]: the byte at index [i]; [None] is Go's run-time panic
    "index out of range". *)
Definition byteAt (s : string) (i : nat) : option ascii := String.get i s.

(** ASCII bytes are those below [utf8.RuneSelf] = 0x80. *)
Definition isASCIIbyte (c : ascii) : bool := (code c <? 0x80)%N.

Fixpoint isASCII (s : string) : bool :=
  match s with
  | EmptyString => true
  | String c r => isASCIIbyte c && isASCII r
  end.

Definition lowerByte (c : ascii) : ascii :=
  if ((0x41 <=? code c) && (code c <=? 0x5A))%N
  then ascii_of_N (code c + 32)
  else c.

Fixpoint lowerASCII (s : string) : string :=
  match s with
  | EmptyString => ""
  | String c r => String (lowerByte c) (lowerASCII r)
  end.

End GoStrings.

Import GoStrings.

(* ================================================================== *)
(** ** Numbers *)
(* ================================================================== *)

(** [float64(n)] for an [int] n: the nearest binary64 value, ties to even. *)
Definition float64_of_int (n : Z) : float :=
  SF2Prim (binary_normalize prec emax n 0 false).

(** [int(f)] for a [float64] f: the fraction is discarded.  Where the value
    does not fit an [int] (too large, infinite or not a number) the language
    leaves the result to the implementation; the value taken here is the
    one amd64 gives, the smallest [int]. *)
Definition int_of_float64 (f : float) : Z :=
  match Prim2SF f with
  | S754_zero _ => 0
  | S754_finite s m e =>
      let a := if (0 <=? e)%Z then (Zpos m * 2 ^ e)%Z else (Zpos m / 2 ^ (- e))%Z in
      let v := if s then (- a)%Z else a in
      if ((- 2 ^ 63 <=? v) && (v <? 2 ^ 63))%Z then v else (- 2 ^ 63)%Z
  | _ => (- 2 ^ 63)%Z
  end.

(** Arithmetic on [int] wraps around at 64 bits. *)
Definition wrap64 (z : Z) : Z := ((z + 2 ^ 63) mod 2 ^ 64 - 2 ^ 63)%Z.

(* ================================================================== *)
(** ** Values, errors, effects *)
(* ================================================================== *)

(** [Point] of the second program and [DataPoint] of the first: the same
    struct of two [float64] fields. *)
Record Point : Type := { X : float; Y : float }.

(** An [error] value: one a library call returned, or one built by
    [fmt.Errorf] from a format and its arguments. *)
Inductive error : Type :=
| LibError (what : string)
| Errorf (format : string) (args : list fmtarg)
with fmtarg : Type :=
| ArgS (s : string)
| ArgI (n : Z)
| ArgF (f : float)
| ArgE (e : error).

(** Go's [(T, error)] result pair. *)
Inductive result (A : Type) : Type :=
| Ok (a : A)
| Err (e : error).
Arguments Ok {A} a.
Arguments Err {A} e.

(** What a run does to the outside. *)
Inductive event : Type :=
| LogPrintf (format : string) (args : list fmtarg)   (* log.Printf *)
| LogFatal (args : list fmtarg)                      (* the message of log.Fatal *)
| Printf (format : string) (args : list fmtarg)      (* fmt.Printf *)
| Println (args : list fmtarg)                       (* fmt.Println *)
| Fprintf_Stderr (format : string) (args : list fmtarg)
| PrintDefaults                                      (* flag.PrintDefaults *)
| SavedPlot (file : string) (width height : float) (data : list Point)
                                                     (* p.Save wrote the file *)
| SixelOut (width height : Z) (file : string).       (* enc.Encode wrote to os.Stdout *)

(** What opening and scanning a data file gives: [os.Open] fails, or the
    scanner delivers these lines, one per successful [Scan], and then
    [scanner.Err()] is this. *)
Inductive FileRead : Type :=
| OpenFails (e : error)
| Scans (lines : list string) (err : option error).

(** The collaborators of a run.  A Go [error] result is an [option error],
    [None] being [nil]. *)
Record World : Type := {
  TERM : string;                                     (* os.Getenv("TERM"); empty when unset *)
  readFile : string -> FileRead;                     (* os.Open, bufio.NewScanner *)
  NewLine : list Point -> option error;              (* plotter.NewLine *)
  NewScatter : list Point -> option error;           (* plotter.NewScatter *)
  Save : float -> float -> string -> list Point -> option error;   (* p.Save *)
  openImage : string -> option error;                (* os.Open of the saved image *)
  Decode : string -> option error;                   (* image.Decode *)
  Encode : Z -> Z -> string -> option error          (* enc.Encode *)
}.

(** Library functions whose result depends on their argument only. *)
Class GoLib : Type := {
  (** [strconv.ParseFloat(s, 64)]: [Some v] when the error is [nil]. *)
  ParseFloat : string -> option float;
  (** [strings.Map(unicode.ToLower, s)], which [strings.ToLower] falls back to
      when [s] has a byte outside ASCII. *)
  MapToLower : string -> string
}.

(** The end of a computation: it returns, it panics, or it leaves the
    process through [os.Exit]. *)
Inductive outcome (A : Type) : Type :=
| Done (a : A)
| Panics
| Exits (code : Z).
Arguments Done {A} a.
Arguments Panics {A}.
Arguments Exits {A} code.

Definition IO (A : Type) : Type := (list event * outcome A)%type.

Definition ret {A : Type} (a : A) : IO A := ([], Done a).

Definition bind {A B : Type} (m : IO A) (k : A -> IO B) : IO B :=
  match m with
  | (t, Done a) => let (t', r) := k a in (t ++ t', r)
  | (t, Panics) => (t, Panics)
  | (t, Exits c) => (t, Exits c)
  end.

Definition emit (e : event) : IO unit := ([e], Done tt).

Definition exit {A : Type} (code : Z) : IO A := ([], Exits code).

(** A value whose computation may panic. *)
Definition orPanic {A : Type} (o : option A) : IO A :=
  match o with
  | Some a => ret a
  | None => ([], Panics)
  end.

Declare Scope io_scope.
Delimit Scope io_scope with io.
Notation "x <- m ;; k" := (bind m (fun x => k))
  (at level 61, m at next level, right associativity) : io_scope.
Notation "m ;;; k" := (bind m (fun _ => k))
  (at level 61, right associativity) : io_scope.

(** [a[i]] on a slice of strings; [None] is the panic. *)
Definition at_ (a : list string) (i : nat) : option string := nth_error a i.

(** [let*] on values that may panic. *)
Definition andThen {A B : Type} (o : option A) (k : A -> option B) : option B :=
  match o with
  | Some a => k a
  | None => None
  end.

(** [a || b], where [b] is evaluated only when [a] is false. *)
Definition orElse (a : option bool) (b : unit -> option bool) : option bool :=
  match a with
  | Some true => Some true
  | Some false => b tt
  | None => None
  end.

(** [strings.ToLower]. *)
Fixpoint hasUpper (s : string) : bool :=
  match s with
  | EmptyString => false
  | String c r => ((0x41 <=? code c) && (code c <=? 0x5A))%N || hasUpper r
  end.

Definition ToLower {lib : GoLib} (s : string) : string :=
  if isASCII s then (if hasUpper s then lowerASCII s else s)
  else MapToLower s.

(** [filepath.Ext], with '/' as the path separator: the suffix from the last
    dot of the last element of the path. *)
Fixpoint extFrom (back : list ascii) (acc : list ascii) : list ascii :=
  match back with
  | [] => []
  | c :: back' =>
      if Ascii.eqb c "/" then []
      else if Ascii.eqb c "." then c :: acc
      else extFrom back' (c :: acc)
  end.

Definition Ext (path : string) : string :=
  string_of_list_ascii (extFrom (rev (list_ascii_of_string path)) []).

(** [strings.HasSuffix] and [strings.TrimSuffix]. *)
Definition HasSuffix (s suffix : string) : bool :=
  (len suffix <=? len s)%nat
  && streq (substring (len s - len suffix) (len suffix) s) suffix.

Definition TrimSuffix (s suffix : string) : string :=
  if HasSuffix s suffix then substring 0 (len s - len suffix) s else s.

Local Open Scope float_scope.
Local Open Scope io_scope.

(* ================================================================== *)
(** ** The first program (lines 1-216) *)
(* ================================================================== *)

Module Prog1.

Record Config : Type := {
  width : Z;
  height : Z;
  scale : float
}.

Definition DataPoint : Type := Point.

(** What [flag.Parse] found on the command line. *)
Record CommandLine : Type := {
  opt_width : option Z;
  opt_height : option Z;
  opt_scale : option float;
  program : string;
  operands : list string
}.

Section WithLibrary.
Context {lib : GoLib}.

(** The variables of the loop of [readDataFromFile]. *)
Record ingest : Type := {
  points : list DataPoint;
  lineNumber : float;
  lineCount : Z
}.

(** One turn of the loop of [readDataFromFile] (lines 63-99). *)
Definition readLine (st : ingest) (line : string) : IO ingest :=
  let lineCount' := wrap64 (lineCount st + 1) in
  let continue :=
    {| points := points st; lineNumber := lineNumber st;
       lineCount := lineCount' |} in
  if HasPrefix line "#" || HasPrefix line "%" || HasPrefix line "/"
  then ret continue
  else
    let fields := Fields line in
    if (List.length fields =? 0)%nat then ret continue
    else
      if (2 <=? List.length fields)%nat then
        f0 <- orPanic (at_ fields 0) ;;
        f1 <- orPanic (at_ fields 1) ;;
        match ParseFloat f0, ParseFloat f1 with
        | Some x, Some y =>
            ret {| points := points st ++ [{| X := x; Y := y |}];
                   lineNumber := lineNumber st + 1.0;
                   lineCount := lineCount' |}
        | _, _ =>
            emit (Printf "Parsing error on line %d: %s\n"
                    [ArgI lineCount'; ArgS line]) ;;;
            ret continue
        end
      else if (List.length fields =? 1)%nat then
        f0 <- orPanic (at_ fields 0) ;;
        match ParseFloat f0 with
        | Some y =>
            ret {| points := points st ++ [{| X := lineNumber st; Y := y |}];
                   lineNumber := lineNumber st + 1.0;
                   lineCount := lineCount' |}
        | None =>
            emit (Printf "Parsing error on line %d: %s\n"
                    [ArgI lineCount'; ArgS line]) ;;;
            ret continue
        end
      else
        emit (Printf "Unsupported format on line %d: %s\n"
                [ArgI lineCount'; ArgS line]) ;;;
        ret continue.

Fixpoint readLines (st : ingest) (lines : list string) : IO ingest :=
  match lines with
  | [] => ret st
  | line :: rest =>
      st' <- readLine st line ;;
      readLines st' rest
  end.

(** [readDataFromFile] (lines 51-106). *)
Definition readDataFromFile (w : World) (filename : string)
  : IO (result (list DataPoint)) :=
  match readFile w filename with
  | OpenFails err => ret (Err (Errorf "failed to open file: %v" [ArgE err]))
  | Scans lines serr =>
      st <- readLines {| points := []; lineNumber := 0.0; lineCount := 0 |}
              lines ;;
      match serr with
      | Some err => ret (Err (Errorf "error reading file: %v" [ArgE err]))
      | None => ret (Ok (points st))
      end
  end.

(** [createPlot] (lines 108-143): the plot is made of the data, or an
    error is returned. *)
Definition createPlot (w : World) (data : list DataPoint) : option error :=
  match NewLine w data with
  | Some err => Some (Errorf "error creating line: %v" [ArgE err])
  | None =>
      match NewScatter w data with
      | Some err => Some (Errorf "error creating scatter: %v" [ArgE err])
      | None => None
      end
  end.

(** [isSixelSupported] (lines 213-216), on the value of TERM. *)
Definition isSixelSupported (term : string) : bool :=
  Contains term "xterm" || Contains term "vt340" || Contains term "mlterm".

(** The [Width] and [Height] of the encoder when [Encode] is called
    (lines 190-200); [sixel.NewEncoder] leaves both 0. *)
Definition encoderSize (config : Config) : Z * Z :=
  if negb (PrimFloat.eqb (scale config) 1.0) then
    let newWidth := int_of_float64 (float64_of_int (width config) * scale config) in
    let newHeight := int_of_float64 (float64_of_int (height config) * scale config) in
    if ((0 <? newWidth) && (0 <? newHeight))%Z
    then (newWidth, newHeight)
    else (0%Z, 0%Z)
  else (0%Z, 0%Z).

Definition outFileName (filename : string) : string :=
  (TrimSuffix filename (Ext filename) ++ "_plot.png")%string.

(** [plotDataToSixel] (lines 145-211). *)
Definition plotDataToSixel (w : World) (filename : string) (config : Config)
  : IO (option error) :=
  r <- readDataFromFile w filename ;;
  match r with
  | Err err => ret (Some err)
  | Ok data =>
      if (List.length data =? 0)%nat
      then ret (Some (Errorf "no valid data points found in file" []))
      else
        match createPlot w data with
        | Some err => ret (Some err)
        | None =>
            let outFile := outFileName filename in
            let width := float64_of_int (width config) in
            let height := float64_of_int (height config) in
            match Save w width height outFile data with
            | Some err => ret (Some (Errorf "failed to save plot: %v" [ArgE err]))
            | None =>
                emit (SavedPlot outFile width height data) ;;;
                emit (Println [ArgS "Plot saved to file:"; ArgS outFile]) ;;;
                if isSixelSupported (TERM w) then
                  match openImage w outFile with
                  | Some err =>
                      ret (Some (Errorf "failed to open saved image: %v" [ArgE err]))
                  | None =>
                      match Decode w outFile with
                      | Some err =>
                          ret (Some (Errorf "failed to decode saved image: %v" [ArgE err]))
                      | None =>
                          let '(ew, eh) := encoderSize config in
                          match Encode w ew eh outFile with
                          | Some err =>
                              ret (Some (Errorf "failed to encode sixel: %v" [ArgE err]))
                          | None => emit (SixelOut ew eh outFile) ;;; ret None
                          end
                      end
                  end
                else
                  emit (Println
                          [ArgS "Terminal does not support Sixel. Plot saved to file:";
                           ArgS outFile]) ;;;
                  ret None
            end
        end
  end.

(** [main] (lines 30-49). *)
Definition main (w : World) (cl : CommandLine) : IO unit :=
  let config :=
    {| width := match opt_width cl with Some v => v | None => 800%Z end;
       height := match opt_height cl with Some v => v | None => 600%Z end;
       scale := match opt_scale cl with Some v => v | None => 1.0 end |} in
  match operands cl with
  | [dataPath] =>
      e <- plotDataToSixel w dataPath config ;;
      match e with
      | Some err => emit (Fprintf_Stderr "Error: %v\n" [ArgE err]) ;;; exit 1%Z
      | None => ret tt
      end
  | _ =>
      emit (Fprintf_Stderr "Usage: %s [options] data_file\n" [ArgS (program cl)]) ;;;
      emit PrintDefaults ;;;
      exit 1%Z
  end.

End WithLibrary.

End Prog1.

(* ================================================================== *)
(** ** The second program (lines 217-527) *)
(* ================================================================== *)

Module Prog2.

Definition defaultWidth : Z := 1200.
Definition defaultHeight : Z := 1200.
Definition defaultScale : float := 1.0.
Definition defaultLineWidth : float := 1.0.

(** [Config], without its colours. *)
Record Config : Type := {
  Width : Z;
  Height : Z;
  Scale : float;
  Input : string;
  LineWidth : float
}.

(** What [flag.Parse] found on the command line: the value given to each
    option, if any, and the remaining arguments. *)
Record CommandLine : Type := {
  opt_w : option Z;
  opt_h : option Z;
  opt_s : option float;
  opt_line_width : option float;
  operands : list string
}.

Definition orDefault {A : Type} (o : option A) (d : A) : A :=
  match o with Some a => a | None => d end.

Section WithLibrary.
Context {lib : GoLib}.

(** [parseLine] (lines 399-427). *)
Definition parseLine (line : string) (lineIndex : float)
  : option (result Point) :=
  let fields := Fields line in
  match List.length fields with
  | 1%nat =>
      andThen (at_ fields 0) (fun f0 =>
      match ParseFloat f0 with
      | None => Some (Err (Errorf "invalid Y value %q" [ArgS f0]))
      | Some y => Some (Ok {| X := lineIndex; Y := y |})
      end)
  | 2%nat =>
      andThen (at_ fields 0) (fun f0 =>
      match ParseFloat f0 with
      | None => Some (Err (Errorf "invalid X value %q" [ArgS f0]))
      | Some x =>
          andThen (at_ fields 1) (fun f1 =>
          match ParseFloat f1 with
          | None => Some (Err (Errorf "invalid Y value %q" [ArgS f1]))
          | Some y => Some (Ok {| X := x; Y := y |})
          end)
      end)
  | n =>
      Some (Err (Errorf "expected 1 or 2 values, got %d" [ArgI (Z.of_nat n)]))
  end.

(** The condition of the [if] at line 376:
    [line == "" || line[0] == '#' || line[0] == '%']. *)
Definition skipped (line : string) : option bool :=
  orElse (Some (streq line "")) (fun _ =>
  orElse (andThen (byteAt line 0) (fun b => Some (Ascii.eqb b "#"))) (fun _ =>
          andThen (byteAt line 0) (fun b => Some (Ascii.eqb b "%")))).

(** The variables of the loop of [readData]. *)
Record ingest : Type := { points : list Point; lineIndex : float }.

(** One turn of the loop of [readData] (lines 373-388), on the text the
    scanner delivered. *)
Definition readLine (filename : string) (st : ingest) (text : string)
  : IO ingest :=
  let line := TrimSpace text in
  skip <- orPanic (skipped line) ;;
  if skip : bool then ret st
  else
    r <- orPanic (parseLine line (lineIndex st)) ;;
    match r with
    | Err err =>
        emit (LogPrintf "Skipping line %.0f in %s: %v"
                [ArgF (lineIndex st + 1); ArgS filename; ArgE err]) ;;;
        ret st
    | Ok point =>
        ret {| points := points st ++ [point];
               lineIndex := lineIndex st + 1 |}
    end.

Fixpoint readLines (filename : string) (st : ingest) (texts : list string)
  : IO ingest :=
  match texts with
  | [] => ret st
  | text :: rest =>
      st' <- readLine filename st text ;;
      readLines filename st' rest
  end.

(** [readData] (lines 360-393). *)
Definition readData (w : World) (filename : string)
  : IO (result (list Point)) :=
  match readFile w filename with
  | OpenFails err => ret (Err (Errorf "open file: %w" [ArgE err]))
  | Scans texts serr =>
      st <- readLines filename {| points := []; lineIndex := 0 |} texts ;;
      match serr with
      | Some err => ret (Err (Errorf "scan file: %w" [ArgE err]))
      | None => ret (Ok (points st))
      end
  end.

(** [createPlotters] (lines 467-485). *)
Definition createPlotters (w : World) (pts : list Point) (cfg : Config)
  : option error :=
  match NewLine w pts with
  | Some err => Some (Errorf "create line plotter: %w" [ArgE err])
  | None =>
      match NewScatter w pts with
      | Some err => Some (Errorf "create scatter plotter: %w" [ArgE err])
      | None => None
      end
  end.

(** [createPlot] (lines 434-463).  [vg.Points] turns a number of points
    into a [vg.Length] of the same value. *)
Definition createPlot (w : World) (pts : list Point) (outFile : string)
           (cfg : Config) : IO (option error) :=
  match createPlotters w pts cfg with
  | Some err => ret (Some (Errorf "creating plotters: %w" [ArgE err]))
  | None =>
      let width := float64_of_int (Width cfg) in
      let height := float64_of_int (Height cfg) in
      match Save w width height outFile pts with
      | Some err => ret (Some (Errorf "save plot: %w" [ArgE err]))
      | None => emit (SavedPlot outFile width height pts) ;;; ret None
      end
  end.

(** [isSixelSupported] (lines 522-527), on the value of TERM. *)
Definition isSixelSupported (term0 : string) : bool :=
  let term := ToLower term0 in
  Contains term "xterm" || Contains term "vt340" || Contains term "mlterm".

(** The [Width] and [Height] of the encoder when [Encode] is called
    (lines 509-513); [sixel.NewEncoder] leaves both 0. *)
Definition encoderSize (cfg : Config) : Z * Z :=
  if negb (PrimFloat.eqb (Scale cfg) 1.0)
  then (int_of_float64 (float64_of_int (Width cfg) * Scale cfg),
        int_of_float64 (float64_of_int (Height cfg) * Scale cfg))
  else (0%Z, 0%Z).

(** [displaySixel] (lines 493-519). *)
Definition displaySixel (w : World) (filename : string) (cfg : Config)
  : IO (option error) :=
  if negb (isSixelSupported (TERM w)) then ret None
  else
    match openImage w filename with
    | Some err => ret (Some (Errorf "open image file: %w" [ArgE err]))
    | None =>
        match Decode w filename with
        | Some err => ret (Some (Errorf "decode image: %w" [ArgE err]))
        | None =>
            let '(ew, eh) := encoderSize cfg in
            match Encode w ew eh filename with
            | Some err => ret (Some (Errorf "encode SIXEL: %w" [ArgE err]))
            | None => emit (SixelOut ew eh filename) ;;; ret None
            end
        end
    end.

(** The name of the saved file (line 339). *)
Definition outFileName (input : string) : string :=
  (TrimSuffix input (Ext input) ++ "_plot.png")%string.

(** [run] (lines 329-351). *)
Definition run (w : World) (cfg : Config) : IO (option error) :=
  r <- readData w (Input cfg) ;;
  match r with
  | Err err =>
      ret (Some (Errorf "reading data from %q: %w" [ArgS (Input cfg); ArgE err]))
  | Ok pts =>
      if (List.length pts =? 0)%nat
      then ret (Some (Errorf "no valid data points found in %q" [ArgS (Input cfg)]))
      else
        let outFile := outFileName (Input cfg) in
        e <- createPlot w pts outFile cfg ;;
        match e with
        | Some err => ret (Some (Errorf "creating plot: %w" [ArgE err]))
        | None =>
            emit (LogPrintf "Plot saved to: %s" [ArgS outFile]) ;;;
            e' <- displaySixel w outFile cfg ;;
            match e' with
            | Some err => ret (Some (Errorf "displaying SIXEL: %w" [ArgE err]))
            | None => ret None
            end
        end
  end.

(** [log.Fatal]: the message, then [os.Exit(1)]. *)
Definition logFatal {A : Type} (args : list fmtarg) : IO A :=
  emit (LogFatal args) ;;; exit 1%Z.

(** [parseFlags] (lines 302-325). *)
Definition parseFlags (cl : CommandLine) : IO Config :=
  match operands cl with
  | [input] =>
      ret {| Width := orDefault (opt_w cl) defaultWidth;
             Height := orDefault (opt_h cl) defaultHeight;
             Scale := orDefault (opt_s cl) defaultScale;
             Input := input;
             LineWidth := orDefault (opt_line_width cl) defaultLineWidth |}
  | _ => logFatal [ArgS "Usage: plotter [options] data_file"]
  end.

(** [main] (lines 293-298). *)
Definition main (w : World) (cl : CommandLine) : IO unit :=
  cfg <- parseFlags cl ;;
  e <- run w cfg ;;
  match e with
  | Some err => logFatal [ArgE err]
  | None => ret tt
  end.

End WithLibrary.

End Prog2.

(** The events of a computation, in order. *)
Definition trace {A : Type} (r : IO A) : list event := fst r.

(* ================================================================== *)
(** ** A library instance and worlds for the examples *)
(* ================================================================== *)

(** The value of a string of decimal digits. *)
Fixpoint digitsValue (s : string) (acc : Z) : option Z :=
  match s with
  | EmptyString => Some acc
  | String c r =>
      let n := code c in
      if ((48 <=? n) && (n <=? 57))%N
      then digitsValue r (10 * acc + (Z.of_N n - 48))%Z
      else None
  end.

(** A reader of plain decimal integers of one to fifteen digits, such as
    "10" or "3": on these [strconv.ParseFloat] returns the integer itself,
    which a binary64 value holds exactly.  Every other string is refused.
    It stands for the library at the concrete examples below. *)
Definition decimalOnly : GoLib := {|
  ParseFloat := fun s =>
    if ((1 <=? len s) && (len s <=? 15))%nat
    then option_map float64_of_int (digitsValue s 0)
    else None;
  MapToLower := fun s => s
|}.

(** A world in which the terminal is [term], every data file holds the
    lines [texts] and scans without fault, and the plotting, image and
    encoder calls succeed. *)
Definition quietWorld (term : string) (texts : list string) : World := {|
  TERM := term;
  readFile := fun _ => Scans texts None;
  NewLine := fun _ => None;
  NewScatter := fun _ => None;
  Save := fun _ _ _ _ => None;
  openImage := fun _ => None;
  Decode := fun _ => None;
  Encode := fun _ _ _ => None
|}.

(* ================================================================== *)
(** ** The words of the specification *)
(* ================================================================== *)

(** [UnsupportedFormat], reporting the number of fields found. *)
Definition UnsupportedFormat (count : nat) : error :=
  Errorf "expected 1 or 2 values, got %d" [ArgI (Z.of_nat count)].

(** [InvalidValue], naming the coordinate whose field is no float literal. *)
Inductive coordinate : Type := CoordX | CoordY.

Definition InvalidValue (which : coordinate) (field : string) : error :=
  match which with
  | CoordX => Errorf "invalid X value %q" [ArgS field]
  | CoordY => Errorf "invalid Y value %q" [ArgS field]
  end.

(** A valid float literal is a string the platform's parser accepts. *)
Definition validFloat {lib : GoLib} (field : string) : Prop :=
  exists v, ParseFloat field = Some v.

(** The test of the [if] at line 376 as a truth value. *)
Definition blankOrComment (line : string) : bool :=
  match line with
  | EmptyString => true
  | String c _ => Ascii.eqb c "#" || Ascii.eqb c "%"
  end.

(** A blank line: nothing is left of it after trimming. *)
Definition isBlank (text : string) : bool := streq (TrimSpace text) "".

(** A comment line: its first character after trimming is '#' or '%'. *)
Definition isComment (text : string) : bool :=
  match TrimSpace text with
  | EmptyString => false
  | String c _ => Ascii.eqb c "#" || Ascii.eqb c "%"
  end.

(** The point a line is successfully parsed into, if it is, when the
    synthetic X counter is [counter]. *)
Definition parsedPoint {lib : GoLib} (text : string) (counter : float)
  : option Point :=
  if isBlank text || isComment text then None
  else match Prog2.parseLine (TrimSpace text) counter with
       | Some (Ok p) => Some p
       | _ => None
       end.

(** The error of a malformed line: one that is neither blank nor a comment
    and fails to parse. *)
Definition parseFailure {lib : GoLib} (text : string) (counter : float)
  : option error :=
  if isBlank text || isComment text then None
  else match Prog2.parseLine (TrimSpace text) counter with
       | Some (Err e) => Some e
       | _ => None
       end.

(** The number [n] as the counter holds it: 0.0 incremented [n] times. *)
Definition countF (n : nat) : float := Nat.iter n (fun x => x + 1) 0.

(** The points of the successfully parsed lines, in file order, the
    synthetic X being the number of points before; [acc] holds the points
    of the lines already seen. *)
Fixpoint pointsOfLines {lib : GoLib} (acc : list Point) (texts : list string)
  : list Point :=
  match texts with
  | [] => acc
  | text :: rest =>
      match parsedPoint text (countF (List.length acc)) with
      | Some p => pointsOfLines (acc ++ [p]) rest
      | None => pointsOfLines acc rest
      end
  end.

(** The malformed lines, each with the number of points before it and its
    error. *)
Fixpoint failuresOfLines {lib : GoLib} (acc : list Point) (texts : list string)
  : list (nat * error) :=
  match texts with
  | [] => []
  | text :: rest =>
      match parsedPoint text (countF (List.length acc)) with
      | Some p => failuresOfLines (acc ++ [p]) rest
      | None =>
          match parseFailure text (countF (List.length acc)) with
          | Some e => (List.length acc, e) :: failuresOfLines acc rest
          | None => failuresOfLines acc rest
          end
      end
  end.

(** The diagnostic [readData] logs for a malformed line. *)
Definition diagnostic (filename : string) (f : nat * error) : event :=
  LogPrintf "Skipping line %.0f in %s: %v"
    [ArgF (countF (fst f) + 1); ArgS filename; ArgE (snd f)].

(** The point the first program takes from a line, if any, when its
    counter [lineNumber] is [counter]. *)
Definition takenPoint {lib : GoLib} (line : string) (counter : float)
  : option Point :=
  if HasPrefix line "#" || HasPrefix line "%" || HasPrefix line "/" then None
  else match Fields line with
       | [] => None
       | [f0] =>
           match ParseFloat f0 with
           | Some y => Some {| X := counter; Y := y |}
           | None => None
           end
       | f0 :: f1 :: _ =>
           match ParseFloat f0, ParseFloat f1 with
           | Some x, Some y => Some {| X := x; Y := y |}
           | _, _ => None
           end
       end.

(** Whether the first program reports the line: it is no comment, has a
    field, and gives no point. *)
Definition reported {lib : GoLib} (line : string) (counter : float) : bool :=
  negb (HasPrefix line "#" || HasPrefix line "%" || HasPrefix line "/")
  && negb (List.length (Fields line) =? 0)%nat
  && match takenPoint line counter with Some _ => false | None => true end.

Fixpoint pointsOfLines1 {lib : GoLib} (acc : list Point) (lines : list string)
  : list Point :=
  match lines with
  | [] => acc
  | line :: rest =>
      match takenPoint line (countF (List.length acc)) with
      | Some p => pointsOfLines1 (acc ++ [p]) rest
      | None => pointsOfLines1 acc rest
      end
  end.

(** The physical numbers, counted from [count] + 1, of the lines the first
    program reports. *)
Fixpoint reportedLines {lib : GoLib} (acc : list Point) (count : Z)
         (lines : list string) : list (Z * string) :=
  match lines with
  | [] => []
  | line :: rest =>
      let count' := wrap64 (count + 1) in
      match takenPoint line (countF (List.length acc)) with
      | Some p => reportedLines (acc ++ [p]) count' rest
      | None =>
          if reported line (countF (List.length acc))
          then (count', line) :: reportedLines acc count' rest
          else reportedLines acc count' rest
      end
  end.

Definition diagnostic1 (r : Z * string) : event :=
  Printf "Parsing error on line %d: %s\n" [ArgI (fst r); ArgS (snd r)].

Fixpoint countOf (count : Z) (lines : list string) : Z :=
  match lines with
  | [] => count
  | _ :: rest => countOf (wrap64 (count + 1)) rest
  end.

(** The points an ingestion returns, when it returns some. *)
Definition pointOutput (r : IO (result (list Point))) : option (list Point) :=
  match snd r with
  | Done (Ok pts) => Some pts
  | _ => None
  end.

(** The error of a run whose data file gives no point. *)
Definition EmptyDatasetError (input : string) : error :=
  Errorf "no valid data points found in %q" [ArgS input].

Definition EmptyDatasetError1 : error :=
  Errorf "no valid data points found in file" [].

(** [s] contains [pat], upper and lower case of the ASCII letters taken as
    equal: some part of [s] is [pat] once both are put in lower case. *)
Definition containsFold (s pat : string) : Prop :=
  exists pre mid post,
    s = (pre ++ mid ++ post)%string /\ lowerASCII mid = lowerASCII pat.

(** [s] contains [pat] as it is written. *)
Definition containsExact (s pat : string) : Prop :=
  exists pre post, s = (pre ++ pat ++ post)%string.

(** The terminal types the specification names. *)
Definition recognized (contains : string -> string -> Prop) (term : string) : Prop :=
  contains term "xterm" \/ contains term "vt340" \/ contains term "mlterm".

(** Terminal-graphics output, a saved plot. *)
Definition isSixelOut (e : event) : bool :=
  match e with SixelOut _ _ _ => true | _ => false end.

Definition isSavedPlot (e : event) : bool :=
  match e with SavedPlot _ _ _ _ => true | _ => false end.

(** A line of only white space: every piece [scan] cuts is white space. *)
Definition onlyWhiteSpace (text : string) : bool := forallb isSp (scan text).

(** The state the first program's loop goes on with after a line it takes
    no point from. *)
Definition passed (st : Prog1.ingest) : Prog1.ingest :=
  {| Prog1.points := Prog1.points st;
     Prog1.lineNumber := Prog1.lineNumber st;
     Prog1.lineCount := wrap64 (Prog1.lineCount st + 1) |}.

(* ================================================================== *)
(** ** Definitions used in the proofs *)
(* ================================================================== *)

(** The first [n] bytes of a string, and the rest. *)
Fixpoint take (n : nat) (s : string) : string :=
  match n, s with
  | S n', String c r => String c (take n' r)
  | _, _ => ""
  end.

Fixpoint drop (n : nat) (s : string) : string :=
  match n, s with
  | S n', String c r => drop n' r
  | _, _ => s
  end.

(** The first piece [scan] cuts off, and what is left. *)
Definition cut (s : string) : option (piece * string) :=
  match s with
  | EmptyString => None
  | String c0 r0 =>
      match spaceWidth s, r0 with
      | 3, String c1 (String c2 r2) =>
          Some (Sp (String c0 (String c1 (String c2 ""))), r2)
      | 2, String c1 r1 => Some (Sp (String c0 (String c1 "")), r1)
      | 1, _ => Some (Sp (String c0 ""), r0)
      | _, _ => Some (Ch c0, r0)
      end
  end.

(** A list of pieces that [scan] gives back from its bytes. *)
Definition stable (l : list piece) : Prop := scan (unscan l) = l.

Definition allSp (l : list piece) : bool := forallb isSp l.

(** The pieces [TrimSpace] keeps. *)
Definition trimPieces (l : list piece) : list piece :=
  rev (dropSp (rev (dropSp l))).

(** The first program before its first line. *)
Definition start1 : Prog1.ingest :=
  {| Prog1.points := []; Prog1.lineNumber := 0; Prog1.lineCount := 0 |}.

(* ================================================================== *)
(** ** Further worlds and errors *)
(* ================================================================== *)

(** A world in which every data file holds the lines [texts] and the
    scanner then reports [fault]; the terminal is an xterm and the other
    calls succeed. *)
Definition faultyWorld (texts : list string) (fault : error) : World := {|
  TERM := "xterm";
  readFile := fun _ => Scans texts (Some fault);
  NewLine := fun _ => None;
  NewScatter := fun _ => None;
  Save := fun _ _ _ _ => None;
  openImage := fun _ => None;
  Decode := fun _ => None;
  Encode := fun _ _ _ => None
|}.



(* ================================================================== *)
(** ** Lemmas on the string functions *)
(* ================================================================== *)

Section StringLemmas.

Ltac split_ifs :=
  repeat match goal with
         | |- context [if ?b then _ else _] => destruct b
         end.

Lemma string_length_ind (P : string -> Prop) :
  (forall s, (forall t, (len t < len s)%nat -> P t) -> P s) ->
  forall s, P s.
Proof.
  intros step s.
  enough (G : forall n t, (len t < n)%nat -> P t) by (apply (G (S (len s))); lia).
  induction n as [|n IH]; intros t Ht; [lia|].
  apply step. intros u Hu. apply IH. lia.
Qed.

Lemma append_nil_r (s : string) : (s ++ "")%string = s.
Proof. induction s as [|c s IH]; simpl; [reflexivity | now rewrite IH]. Qed.

Lemma append_assoc (s t u : string) :
  ((s ++ t) ++ u)%string = (s ++ (t ++ u))%string.
Proof. induction s as [|c s IH]; simpl; [reflexivity | now rewrite IH]. Qed.

Lemma append_inv_head (s t u : string) :
  (s ++ t)%string = (s ++ u)%string -> t = u.
Proof.
  induction s as [|c s IH]; simpl; intros E; [assumption|].
  injection E as E. now apply IH.
Qed.

Lemma len_append (s t : string) : len (s ++ t) = (len s + len t)%nat.
Proof. induction s as [|c s IH]; simpl; [reflexivity | now rewrite <- IH]. Qed.

Lemma take_append (w r : string) : take (len w) (w ++ r) = w.
Proof. induction w as [|c w IH]; simpl; [now destruct r | now rewrite IH]. Qed.

Lemma drop_append (w r : string) : drop (len w) (w ++ r) = r.
Proof. induction w as [|c w IH]; simpl; [reflexivity | exact IH]. Qed.

Lemma take_drop (n : nat) (s : string) : (take n s ++ drop n s)%string = s.
Proof.
  revert s; induction n as [|n IH]; intros [|c s]; simpl; try reflexivity.
  now rewrite IH.
Qed.

Lemma len_take (n : nat) (s : string) : (n <= len s)%nat -> len (take n s) = n.
Proof.
  revert s; induction n as [|n IH]; intros [|c s]; simpl; intros Hn;
    try reflexivity; try lia.
  rewrite IH; [reflexivity | lia].
Qed.

Lemma spaceWidth_le (s : string) :
  (spaceWidth s <= len s)%nat.
Proof.
  destruct s as [|c0 [|c1 [|c2 r]]]; unfold spaceWidth; cbn [len String.length];
    split_ifs; lia.
Qed.

Lemma spaceWidth_app (s t : string) :
  (0 < spaceWidth s)%nat -> spaceWidth (s ++ t) = spaceWidth s.
Proof.
  destruct s as [|c0 [|c1 [|c2 r]]]; unfold spaceWidth; cbn [append];
    try (destruct (asciiSpace c0)); try lia; try reflexivity;
    destruct t as [|d0 [|d1 t]]; cbn [append];
    try (destruct (space2 c0 c1)); try lia; try reflexivity.
Qed.

(** The white space a string starts with is decided by its first bytes. *)
Lemma spaceWidth_prefix (s t : string) :
  (spaceWidth (s ++ t) <= len s)%nat -> spaceWidth s = spaceWidth (s ++ t).
Proof.
  destruct s as [|c0 [|c1 [|c2 r]]]; unfold spaceWidth;
    cbn [append len String.length].
  - destruct t as [|d0 [|d1 [|d2 t]]]; split_ifs; lia.
  - destruct (asciiSpace c0); [reflexivity|].
    destruct t as [|d0 [|d1 t]]; cbn [append]; split_ifs; lia.
  - destruct (asciiSpace c0); [reflexivity|].
    destruct (space2 c0 c1); [reflexivity|].
    destruct t as [|d0 t]; cbn [append]; split_ifs; lia.
  - reflexivity.
Qed.

Lemma cut_spaceWidth (s : string) :
  cut s = match s with
          | EmptyString => None
          | String c r =>
              match spaceWidth s with
              | O => Some (Ch c, r)
              | S k => Some (Sp (take (S k) s), drop (S k) s)
              end
          end.
Proof.
  destruct s as [|c0 [|c1 [|c2 r]]]; unfold cut; [reflexivity| | |];
    unfold spaceWidth; split_ifs; reflexivity.
Qed.

Lemma scan_cut (s : string) :
  scan s = match cut s with
           | None => []
           | Some (p, r) => p :: scan r
           end.
Proof.
  destruct s as [|c0 [|c1 [|c2 r]]]; [reflexivity| | |];
    unfold cut; cbn [scan];
    destruct (spaceWidth _) as [|[|[|[|n]]]]; reflexivity.
Qed.

Lemma cut_sound (s : string) (p : piece) (r : string) :
  cut s = Some (p, r) ->
  s = (bytesOf p ++ r)%string /\ (len r < len s)%nat /\ bytesOf p <> "".
Proof.
  rewrite cut_spaceWidth. destruct s as [|c s]; [discriminate|].
  pose proof (spaceWidth_le (String c s)) as Hle.
  destruct (spaceWidth (String c s)) as [|k]; intros E; injection E as <- <-.
  - cbn. split; [reflexivity | split; [unfold len; lia | discriminate]].
  - cbn [bytesOf append]. rewrite take_drop. split; [reflexivity | split].
    + pose proof (f_equal len (take_drop k s)) as Hd.
      rewrite len_append in Hd. unfold len in *. cbn [String.length]. lia.
    + discriminate.
Qed.

Lemma cut_none (s : string) : cut s = None -> s = "".
Proof.
  rewrite cut_spaceWidth. destruct s as [|c s]; [reflexivity|].
  destruct (spaceWidth _); discriminate.
Qed.

(** What [cut] takes off a string depends on the bytes it takes alone. *)
Lemma cut_prefix (p : piece) (r t : string) :
  cut (bytesOf p ++ (r ++ t)) = Some (p, (r ++ t)%string) ->
  cut (bytesOf p ++ r) = Some (p, r).
Proof.
  rewrite <- append_assoc. rewrite !cut_spaceWidth.
  destruct p as [w|c]; cbn [bytesOf].
  - destruct (w ++ r)%string as [|c0 s0] eqn:Ews.
    + cbn [append]. destruct t as [|d t]; [discriminate|].
      destruct w; [|discriminate]. destruct r; [|discriminate].
      cbn [append]. destruct (spaceWidth _); intros E; [discriminate|].
      injection E as E _. discriminate.
    + cbn [append]. rewrite <- Ews.
      change (String c0 (s0 ++ t)) with (String c0 s0 ++ t)%string.
      rewrite <- Ews.
      pose proof (spaceWidth_le ((w ++ r) ++ t)) as Hle.
      destruct (spaceWidth ((w ++ r) ++ t)) as [|k] eqn:Ek; [discriminate|].
      remember (take (S k) ((w ++ r) ++ t)) as tk eqn:Etk.
      remember (drop (S k) ((w ++ r) ++ t)) as dk eqn:Edk.
      intros E. injection E as Ew Er. subst tk dk.
      assert (Hk : len w = S k).
      { rewrite <- Ew. now apply len_take. }
      rewrite <- spaceWidth_prefix in Ek by (rewrite Ek, len_append; lia).
      rewrite Ek, <- Hk, take_append, drop_append. reflexivity.
  - cbn [append].
    change (String c (r ++ t)) with (String c r ++ t)%string.
    destruct (spaceWidth (String c r ++ t)) as [|k] eqn:Ek; intros E;
      [|discriminate].
    rewrite <- spaceWidth_prefix in Ek by (rewrite Ek; lia).
    now rewrite Ek.
Qed.

Lemma unscan_scan (s : string) : unscan (scan s) = s.
Proof.
  induction s as [s IH] using string_length_ind.
  rewrite scan_cut. destruct (cut s) as [[p r]|] eqn:E.
  - apply cut_sound in E. destruct E as (-> & Hlt & _).
    cbn [unscan]. now rewrite IH.
  - apply cut_none in E. now subst s.
Qed.

Lemma unscan_app (a b : list piece) :
  unscan (a ++ b) = (unscan a ++ unscan b)%string.
Proof.
  induction a as [|p a IH]; cbn [unscan app]; [reflexivity|].
  now rewrite IH, append_assoc.
Qed.

Lemma stable_scan (s : string) : stable (scan s).
Proof. unfold stable. now rewrite unscan_scan. Qed.

Lemma stable_cons (p : piece) (l : list piece) :
  stable (p :: l) ->
  cut (bytesOf p ++ unscan l) = Some (p, unscan l) /\ stable l.
Proof.
  unfold stable. cbn [unscan]. rewrite scan_cut.
  destruct (cut _) as [[q r]|] eqn:E; [|discriminate].
  intros Hs. injection Hs as -> Hr.
  apply cut_sound in E. destruct E as (E & _ & _).
  apply append_inv_head in E. subst r. now rewrite Hr.
Qed.

Lemma stable_suffix (a b : list piece) : stable (a ++ b) -> stable b.
Proof.
  induction a as [|p a IH]; cbn [app]; [trivial|].
  intros Hs. apply stable_cons in Hs. now apply IH.
Qed.

Lemma stable_prefix (a b : list piece) : stable (a ++ b) -> stable a.
Proof.
  induction a as [|p a IH]; cbn [app]; [reflexivity|].
  intros Hs. apply stable_cons in Hs. destruct Hs as (Hc & Hs).
  specialize (IH Hs). unfold stable in *. cbn [unscan].
  rewrite unscan_app in Hc. apply cut_prefix in Hc.
  now rewrite scan_cut, Hc, IH.
Qed.

Lemma dropSp_split (l : list piece) :
  exists k, l = k ++ dropSp l /\ allSp k = true.
Proof.
  induction l as [|[w|c] l (k & E & Hk)].
  - now exists [].
  - exists (Sp w :: k). cbn. now rewrite <- E.
  - now exists [].
Qed.

Lemma dropSp_head (l : list piece) : startsCh (dropSp l) = negb (allSp l).
Proof. induction l as [|[w|c] l IH]; cbn; auto. Qed.

Lemma allSp_app (a b : list piece) : allSp (a ++ b) = allSp a && allSp b.
Proof. apply forallb_app. Qed.

Lemma allSp_rev (a : list piece) : allSp (rev a) = allSp a.
Proof.
  induction a as [|p a IH]; [reflexivity|].
  cbn [rev]. rewrite allSp_app, IH. unfold allSp. cbn [forallb].
  rewrite andb_true_r. apply andb_comm.
Qed.

Lemma trimPieces_split (l : list piece) :
  exists k1 k2,
    l = k1 ++ trimPieces l ++ k2 /\ allSp k1 = true /\ allSp k2 = true.
Proof.
  destruct (dropSp_split l) as (k1 & E1 & H1).
  destruct (dropSp_split (rev (dropSp l))) as (k2 & E2 & H2).
  exists k1, (rev k2). unfold trimPieces. repeat split; [|assumption|].
  - rewrite <- rev_app_distr, <- E2, rev_involutive. exact E1.
  - now rewrite allSp_rev.
Qed.

Lemma dropSp_allSp (l : list piece) : allSp l = true -> dropSp l = [].
Proof.
  induction l as [|[w|c] l IH]; cbn; [reflexivity|assumption|discriminate].
Qed.

Lemma trimPieces_allSp (l : list piece) :
  allSp l = true -> trimPieces l = [].
Proof. intros Hl. unfold trimPieces. now rewrite (dropSp_allSp l Hl). Qed.

Lemma trimPieces_head (l : list piece) :
  allSp l = false -> exists c m, trimPieces l = Ch c :: m.
Proof.
  intros Hl.
  destruct (dropSp_split l) as (k1 & E1 & H1).
  destruct (dropSp_split (rev (dropSp l))) as (k2 & E2 & H2).
  pose proof (dropSp_head l) as Hh. rewrite Hl in Hh. cbn in Hh.
  assert (Et : dropSp l = trimPieces l ++ rev k2).
  { unfold trimPieces. now rewrite <- rev_app_distr, <- E2, rev_involutive. }
  destruct (trimPieces l) as [|[w|c] m] eqn:Em.
  - cbn [app] in Et. rewrite Et in Hh.
    assert (Hk : allSp (rev k2) = true) by now rewrite allSp_rev.
    destruct (rev k2) as [|[w|c] q]; cbn in Hh, Hk; discriminate.
  - rewrite Et in Hh. discriminate.
  - now exists c, m.
Qed.

Lemma fieldsOf_nil (l : list piece) : fieldsOf l = [] <-> allSp l = true.
Proof.
  induction l as [|[w|c] l IH]; cbn [fieldsOf allSp forallb isSp andb].
  - tauto.
  - exact IH.
  - split; [|discriminate].
    destruct (startsCh l), (fieldsOf l); discriminate.
Qed.

Lemma fieldsOf_Sp_l (k l : list piece) :
  allSp k = true -> fieldsOf (k ++ l) = fieldsOf l.
Proof.
  induction k as [|[w|c] k IH]; cbn; [reflexivity|assumption|discriminate].
Qed.

Lemma fieldsOf_Sp_r (l k : list piece) :
  allSp k = true -> fieldsOf (l ++ k) = fieldsOf l.
Proof.
  intros Hk. induction l as [|[w|c] l IH]; cbn [app fieldsOf].
  - apply fieldsOf_nil. exact Hk.
  - exact IH.
  - rewrite IH. destruct l as [|p l]; [|reflexivity].
    cbn [app]. destruct k as [|[w|d] k]; [reflexivity|reflexivity|discriminate].
Qed.

Lemma fieldsOf_trimPieces (l : list piece) :
  fieldsOf (trimPieces l) = fieldsOf l.
Proof.
  destruct (trimPieces_split l) as (k1 & k2 & E & H1 & H2).
  rewrite E at 2. now rewrite fieldsOf_Sp_l, fieldsOf_Sp_r.
Qed.

Lemma stable_trimPieces (s : string) : stable (trimPieces (scan s)).
Proof.
  destruct (trimPieces_split (scan s)) as (k1 & k2 & E & _).
  pose proof (stable_scan s) as Hs. rewrite E in Hs.
  apply stable_suffix in Hs. now apply stable_prefix in Hs.
Qed.

(** Trimming does not change the fields of a line. *)
Lemma Fields_TrimSpace (s : string) : Fields (TrimSpace s) = Fields s.
Proof.
  unfold Fields, TrimSpace. fold (trimPieces (scan s)).
  rewrite (stable_trimPieces s). apply fieldsOf_trimPieces.
Qed.

(** The trimmed line is empty exactly when the line has no field. *)
Lemma TrimSpace_empty (s : string) : TrimSpace s = "" <-> Fields s = [].
Proof.
  split; intros E.
  - rewrite <- Fields_TrimSpace, E. reflexivity.
  - unfold Fields in E. apply fieldsOf_nil in E.
    unfold TrimSpace. fold (trimPieces (scan s)).
    now rewrite trimPieces_allSp.
Qed.



End StringLemmas.

(* ================================================================== *)
(** ** Counting in binary64 *)
(* ================================================================== *)

Section Counting.

Local Open Scope Z_scope.

Lemma digits2_pos_size (p : positive) : digits2_pos p = Pos.size p.
Proof. induction p as [p IH|p IH|]; simpl; now rewrite ?IH. Qed.

Lemma digits2_pos_log2 (p : positive) :
  Zpos (digits2_pos p) = Z.log2 (Zpos p) + 1.
Proof.
  rewrite digits2_pos_size. destruct p as [p|p|]; simpl; try lia.
Qed.

Lemma digits2_pos_unique (p : positive) (d : Z) :
  2 ^ (d - 1) <= Zpos p < 2 ^ d -> Zpos (digits2_pos p) = d.
Proof.
  intros H. rewrite digits2_pos_log2.
  assert (0 <= d - 1).
  { destruct (Z.le_gt_cases 0 (d - 1)) as [|N]; [assumption|].
    assert (C : d < 0 \/ d = 0) by lia. destruct C as [C| ->].
    - rewrite (Z.pow_neg_r 2 d) in H by lia. lia.
    - change (2 ^ 0) with 1 in H. lia. }
  rewrite (Z.log2_unique (Zpos p) (d - 1)); [lia | lia |].
  replace (Z.succ (d - 1)) with d by lia. exact H.
Qed.

Lemma digits2_pos_bounds (p : positive) :
  2 ^ (Zpos (digits2_pos p) - 1) <= Zpos p < 2 ^ Zpos (digits2_pos p).
Proof.
  rewrite digits2_pos_log2.
  pose proof (Z.log2_spec (Zpos p) eq_refl) as H.
  replace (Z.log2 (Zpos p) + 1 - 1) with (Z.log2 (Zpos p)) by lia.
  replace (Z.log2 (Zpos p) + 1) with (Z.succ (Z.log2 (Zpos p))) by lia.
  exact H.
Qed.

Lemma iter_shr_1 (k : positive) :
  forall z, 0 <= z ->
    iter_pos shr_1 k {| shr_m := 2 ^ Zpos k * z; shr_r := false; shr_s := false |}
    = {| shr_m := z; shr_r := false; shr_s := false |}.
Proof.
  induction k as [k IH|k IH|]; intros z Hz; cbn [iter_pos].
  - replace (2 ^ Zpos k~1 * z) with (2 * (2 ^ Zpos k * (2 ^ Zpos k * z))).
    + assert (E : shr_1 {| shr_m := 2 * (2 ^ Zpos k * (2 ^ Zpos k * z));
                           shr_r := false; shr_s := false |}
                  = {| shr_m := 2 ^ Zpos k * (2 ^ Zpos k * z);
                       shr_r := false; shr_s := false |}).
      { destruct (2 ^ Zpos k * (2 ^ Zpos k * z)); reflexivity. }
      rewrite E, IH, IH; try reflexivity; try assumption.
      pose proof (Z.pow_pos_nonneg 2 (Zpos k)). nia.
    + rewrite (Pos2Z.inj_xI k), Z.pow_add_r, Z.pow_mul_r by lia.
      change (2 ^ 2) with 4. rewrite Z.pow_1_r.
      replace (4 ^ Zpos k) with (2 ^ Zpos k * 2 ^ Zpos k).
      * ring.
      * rewrite <- Z.pow_mul_l. reflexivity.
  - replace (2 ^ Zpos k~0 * z) with (2 ^ Zpos k * (2 ^ Zpos k * z)).
    + rewrite IH, IH; try reflexivity; try assumption.
      pose proof (Z.pow_pos_nonneg 2 (Zpos k)). nia.
    + rewrite (Pos2Z.inj_xO k), Z.pow_mul_r by lia. change (2 ^ 2) with 4.
      replace (4 ^ Zpos k) with (2 ^ Zpos k * 2 ^ Zpos k).
      * ring.
      * rewrite <- Z.pow_mul_l. reflexivity.
  - change (2 ^ 1) with 2. destruct z; reflexivity.
Qed.

Lemma fexp_53 (e : Z) : -1074 <= e -> fexp prec emax (53 + e) = e.
Proof. intros He. unfold fexp, emin, prec, emax. lia. Qed.

Lemma digits2_pos_scaled (M m : positive) (k : Z) :
  0 <= k ->
  Zpos (digits2_pos m) = 53 ->
  Zpos M = 2 ^ k * Zpos m ->
  Zpos (digits2_pos M) = 53 + k.
Proof.
  intros Hk Hm HM. apply digits2_pos_unique.
  pose proof (digits2_pos_bounds m) as Hb. rewrite Hm in Hb.
  change (53 - 1) with 52 in Hb.
  replace (53 + k - 1) with (k + 52) by lia.
  replace (53 + k) with (k + 53) by lia.
  rewrite !Z.pow_add_r, HM by lia.
  pose proof (Z.pow_pos_nonneg 2 k ltac:(lia) Hk). nia.
Qed.

(** A mantissa of 53 digits, scaled up by a power of two, is rounded to that
    mantissa. *)
Lemma binary_round_aux_scaled (M m : positive) (E e : Z) :
  Zpos (digits2_pos m) = 53 ->
  -1074 <= e <= 971 ->
  E <= e ->
  Zpos M = 2 ^ (e - E) * Zpos m ->
  binary_round_aux prec emax false (Zpos M) E loc_Exact = S754_finite false m e.
Proof.
  intros Hm He HE HM.
  assert (HdM : Zdigits2 (Zpos M) = 53 + (e - E)).
  { cbn [Zdigits2]. apply (digits2_pos_scaled M m); [lia | assumption..]. }
  assert (Hstep :
    shr_fexp prec emax (Zpos M) E loc_Exact
    = ({| shr_m := Zpos m; shr_r := false; shr_s := false |}, e)).
  { unfold shr_fexp. rewrite HdM.
    replace (53 + (e - E) + E) with (53 + e) by lia.
    rewrite fexp_53 by lia. cbn [shr_record_of_loc]. unfold shr.
    destruct (e - E) as [|k|k] eqn:Ek; [| |lia].
    - change (2 ^ 0) with 1 in HM. rewrite HM, Z.mul_1_l.
      replace E with e by lia. reflexivity.
    - rewrite HM, iter_shr_1 by lia. replace (E + Zpos k) with e by lia.
      reflexivity. }
  assert (Hstay :
    shr_fexp prec emax (Zpos m) e loc_Exact
    = ({| shr_m := Zpos m; shr_r := false; shr_s := false |}, e)).
  { unfold shr_fexp. cbn [Zdigits2]. rewrite Hm, fexp_53 by lia.
    rewrite Z.sub_diag. reflexivity. }
  unfold binary_round_aux. rewrite Hstep.
  cbn [shr_m loc_of_shr_record round_nearest_even]. rewrite Hstay.
  cbn [shr_m]. replace (e <=? emax - prec) with true; [reflexivity|].
  symmetry. apply Z.leb_le. unfold emax, prec. lia.
Qed.

Lemma binary_round_repr (M m : positive) (E e : Z) :
  Zpos (digits2_pos m) = 53 ->
  -1074 <= e <= 971 ->
  (E <= e /\ Zpos M = 2 ^ (e - E) * Zpos m)
  \/ (e <= E /\ Zpos m = 2 ^ (E - e) * Zpos M) ->
  binary_round prec emax false M E = S754_finite false m e.
Proof.
  intros Hm He [(HE & HM)|(HE & HM)]; unfold binary_round, shl_align.
  - rewrite (digits2_pos_scaled M m (e - E)) by (lia || assumption).
    replace (53 + (e - E) + E) with (53 + e) by lia.
    rewrite fexp_53 by lia.
    destruct (e - E) as [|k|k] eqn:Ek; try lia;
      apply binary_round_aux_scaled; try assumption; try lia;
      rewrite Ek; assumption.
  - assert (HdM : Zpos (digits2_pos M) = 53 - (E - e)).
    { apply digits2_pos_unique.
      pose proof (digits2_pos_bounds m) as Hb. rewrite Hm in Hb.
      change (53 - 1) with 52 in Hb. rewrite HM in Hb.
      assert (Hk : 0 <= E - e) by lia.
      pose proof (Z.pow_pos_nonneg 2 (E - e) ltac:(lia) Hk) as Hp.
      assert (Hle : E - e <= 52).
      { destruct (Z.le_gt_cases (E - e) 52) as [|N]; [assumption|exfalso].
        assert (2 ^ 53 <= 2 ^ (E - e)) by (apply Z.pow_le_mono_r; lia). nia. }
      replace 52 with ((53 - (E - e) - 1) + (E - e)) in Hb at 1 by lia.
      replace 53 with ((53 - (E - e)) + (E - e)) in Hb at 2 by lia.
      rewrite !Z.pow_add_r in Hb by lia. nia. }
    rewrite HdM. replace (53 - (E - e) + E) with (53 + e) by lia.
    rewrite fexp_53 by lia.
    destruct (e - E) as [|k|k] eqn:Ek; try lia.
    + assert (E = e) by lia. subst E. rewrite Z.sub_diag in HM.
      change (2 ^ 0) with 1 in HM.
      apply binary_round_aux_scaled; try assumption; try lia.
      rewrite Z.sub_diag. change (2 ^ 0) with 1. lia.
    + apply binary_round_aux_scaled; try assumption; try lia.
      rewrite Z.sub_diag. change (2 ^ 0) with 1.
      change (Pos.iter xO M k) with (shift_pos k M).
      rewrite shift_pos_correct, Z.pow_pos_fold.
      replace (Zpos k) with (E - e) by lia. lia.
Qed.

(** Every integer from 1 to 2^53 is a mantissa of 53 digits times a power
    of two. *)
Lemma normal_form (z : Z) :
  0 < z <= 2 ^ 53 ->
  exists (m : positive) (e : Z),
    Zpos (digits2_pos m) = 53 /\ -52 <= e <= 1
    /\ ((0 <= e /\ z = 2 ^ e * Zpos m) \/ (e <= 0 /\ Zpos m = 2 ^ (- e) * z)).
Proof.
  intros Hz.
  pose proof (Z.log2_spec z ltac:(lia)) as Hl.
  pose proof (Z.log2_nonneg z) as Hn.
  assert (Hd : Z.log2 z <= 53).
  { change 53 with (Z.log2 (2 ^ 53)). apply Z.log2_le_mono. lia. }
  destruct (Z.eq_dec (Z.log2 z) 53) as [E|N].
  - rewrite E in Hl. exists 4503599627370496%positive, 1.
    split; [reflexivity|]. split; [lia|]. left. split; [lia|].
    change (2 ^ 1 * 4503599627370496) with (2 ^ 53). lia.
  - set (k := 52 - Z.log2 z) in *.
    assert (Hk : 0 <= k <= 52) by (unfold k; lia).
    pose proof (Z.pow_pos_nonneg 2 k ltac:(lia) ltac:(lia)) as Hp.
    exists (Z.to_pos (2 ^ k * z)), (- k).
    assert (Em : Zpos (Z.to_pos (2 ^ k * z)) = 2 ^ k * z)
      by (apply Z2Pos.id; nia).
    split.
    + apply digits2_pos_unique. rewrite Em.
      change (53 - 1) with 52.
      replace 52 with (k + Z.log2 z) at 1 by (unfold k; lia).
      replace 53 with (k + Z.succ (Z.log2 z)) by (unfold k; lia).
      rewrite !Z.pow_add_r by lia. nia.
    + split; [lia|]. right. split; [lia|].
      now rewrite Z.opp_involutive.
Qed.

Lemma Prim2SF_inj (x y : float) : Prim2SF x = Prim2SF y -> x = y.
Proof.
  intros E. rewrite <- (SF2Prim_Prim2SF x), <- (SF2Prim_Prim2SF y).
  now rewrite E.
Qed.

Lemma Prim2SF_of_int (z : Z) (m : positive) (e : Z) :
  0 < z ->
  Zpos (digits2_pos m) = 53 -> -52 <= e <= 1 ->
  (0 <= e /\ z = 2 ^ e * Zpos m) \/ (e <= 0 /\ Zpos m = 2 ^ (- e) * z) ->
  Prim2SF (float64_of_int z) = S754_finite false m e.
Proof.
  intros Hz Hm He Hr. unfold float64_of_int.
  destruct z as [|p|p]; try lia. cbn [binary_normalize].
  rewrite (binary_round_repr p m 0 e Hm ltac:(lia)).
  - apply Prim2SF_SF2Prim. cbn [valid_binary]. unfold bounded, canonical_mantissa.
    rewrite Hm, fexp_53 by lia. rewrite Z.eqb_refl. cbn [andb].
    apply Z.leb_le. unfold emax, prec. lia.
  - destruct Hr as [(H0 & E)|(H0 & E)]; [left | right]; split; try lia.
    + now rewrite Z.sub_0_r.
    + now rewrite Z.sub_0_l.
Qed.

(** Adding 1.0 to the binary64 value of an integer below 2^53 gives the
    binary64 value of the next integer. *)
Lemma float64_of_int_succ (z : Z) :
  0 <= z < 2 ^ 53 ->
  (float64_of_int z + 1)%float = float64_of_int (z + 1).
Proof.
  intros Hz. destruct (Z.eq_dec z 0) as [->|N]; [reflexivity|].
  destruct (normal_form z ltac:(lia)) as (m & e & Hm & He & Hr).
  destruct (normal_form (z + 1) ltac:(lia)) as (m' & e' & Hm' & He' & Hr').
  apply Prim2SF_inj. rewrite add_spec.
  rewrite (Prim2SF_of_int z m e), (Prim2SF_of_int (z + 1) m' e')
    by (assumption || lia).
  change (Prim2SF 1) with (S754_finite false 4503599627370496 (-52)).
  unfold SF64add, SFadd. rewrite Z.min_r by lia.
  cbn [cond_Zopp].
  assert (Ha : Zpos (fst (shl_align m e (-52))) = 2 ^ 52 * z).
  { unfold shl_align. destruct (-52 - e) as [|k|k] eqn:Ek; try lia; cbn [fst].
    - assert (e = -52) by lia. subst e.
      destruct Hr as [(H0 & _)|(_ & E)]; [lia|]. exact E.
    - change (Pos.iter xO m k) with (shift_pos k m).
      rewrite shift_pos_correct, Z.pow_pos_fold.
      replace (Zpos k) with (e + 52) by lia.
      destruct Hr as [(H0 & E)|(H0 & E)].
      + rewrite E, Z.pow_add_r by lia. ring.
      + rewrite E. replace 52 with ((e + 52) + (- e)) at 2 by lia.
        rewrite (Z.pow_add_r 2 (e + 52) (- e)) by lia. ring. }
  rewrite Ha. change (shl_align 4503599627370496 (-52) (-52))
    with (4503599627370496%positive, -52). cbn [fst].
  change (Zpos 4503599627370496) with (2 ^ 52).
  destruct (2 ^ 52 * z + 2 ^ 52) as [|S|S] eqn:ES; try lia.
  cbn [binary_normalize].
  apply binary_round_repr; [assumption | lia |].
  left. split; [lia|].
  destruct Hr' as [(H0 & E)|(H0 & E)].
  - replace (2 ^ 52 * z + 2 ^ 52) with (2 ^ 52 * (z + 1)) in ES by ring.
    rewrite <- ES, E. replace (e' - -52) with (52 + e') by lia.
    rewrite Z.pow_add_r by lia. ring.
  - replace (2 ^ 52 * z + 2 ^ 52) with (2 ^ 52 * (z + 1)) in ES by ring.
    rewrite <- ES, E. replace 52 with ((e' - -52) + (- e')) at 1 by lia.
    rewrite (Z.pow_add_r 2 (e' - -52) (- e')) by lia. ring.
Qed.

(** Up to 2^53 the counter holds the number of its increments exactly. *)
Lemma countF_exact (n : nat) :
  Z.of_nat n <= 2 ^ 53 -> countF n = float64_of_int (Z.of_nat n).
Proof.
  induction n as [|n IH]; intros Hn; [reflexivity|].
  change (countF (S n)) with (countF n + 1)%float.
  rewrite IH by lia. rewrite float64_of_int_succ by lia.
  f_equal. lia.
Qed.

End Counting.

(* ================================================================== *)
(** ** The line parser *)
(* ================================================================== *)

Section ParseLine.
Context {lib : GoLib}.

Lemma parseLine_fields (line : string) (lineIndex : float) :
  Prog2.parseLine line lineIndex =
  Some match Fields line with
       | [f] =>
           match ParseFloat f with
           | Some y => Ok {| X := lineIndex; Y := y |}
           | None => Err (InvalidValue CoordY f)
           end
       | [f0; f1] =>
           match ParseFloat f0 with
           | None => Err (InvalidValue CoordX f0)
           | Some x =>
               match ParseFloat f1 with
               | Some y => Ok {| X := x; Y := y |}
               | None => Err (InvalidValue CoordY f1)
               end
           end
       | fs => Err (UnsupportedFormat (List.length fs))
       end.
Proof.
  unfold Prog2.parseLine.
  destruct (Fields line) as [|f0 [|f1 [|f2 fs]]]; cbn; try reflexivity.
  - destruct (ParseFloat f0); reflexivity.
  - destruct (ParseFloat f0); [|reflexivity].
    destruct (ParseFloat f1); reflexivity.
Qed.

Lemma validFloat_None (f : string) : ~ validFloat f <-> ParseFloat f = None.
Proof.
  unfold validFloat. destruct (ParseFloat f) as [v|].
  - split; [intros N; elim N; eauto | discriminate].
  - split; [reflexivity | intros _ (v & E); discriminate].
Qed.

Lemma skipped_value (line : string) :
  Prog2.skipped line = Some (blankOrComment line).
Proof.
  destruct line as [|c r]; [reflexivity|].
  unfold Prog2.skipped, blankOrComment. cbn.
  destruct (Ascii.eqb c "#"); reflexivity.
Qed.

End ParseLine.

(* ================================================================== *)
(** ** The ingestion loop of the second program *)
(* ================================================================== *)

Section Ingestion2.
Context {lib : GoLib}.

Lemma blankOrComment_TrimSpace (text : string) :
  blankOrComment (TrimSpace text) = isBlank text || isComment text.
Proof.
  unfold blankOrComment, isBlank, isComment, streq.
  destruct (TrimSpace text); reflexivity.
Qed.

Lemma parsedPoint_or_failure (text : string) (counter : float) :
  isBlank text || isComment text = false ->
  (exists p, Prog2.parseLine (TrimSpace text) counter = Some (Ok p)
             /\ parsedPoint text counter = Some p
             /\ parseFailure text counter = None)
  \/ (exists e, Prog2.parseLine (TrimSpace text) counter = Some (Err e)
                /\ parsedPoint text counter = None
                /\ parseFailure text counter = Some e).
Proof.
  intros Hb. unfold parsedPoint, parseFailure. rewrite Hb.
  rewrite parseLine_fields.
  match goal with |- context [Some ?r] => destruct r as [p|e] end; eauto.
Qed.

(** One turn of the loop, by the kind of the line. *)
Lemma readLine_value (filename : string) (st : Prog2.ingest) (text : string) :
  Prog2.readLine filename st text =
  match parsedPoint text (Prog2.lineIndex st) with
  | Some p =>
      ([], Done {| Prog2.points := Prog2.points st ++ [p];
                   Prog2.lineIndex := Prog2.lineIndex st + 1 |})
  | None =>
      match parseFailure text (Prog2.lineIndex st) with
      | Some e =>
          ([LogPrintf "Skipping line %.0f in %s: %v"
              [ArgF (Prog2.lineIndex st + 1); ArgS filename; ArgE e]],
           Done st)
      | None => ([], Done st)
      end
  end.
Proof.
  unfold Prog2.readLine. rewrite skipped_value, blankOrComment_TrimSpace.
  destruct (isBlank text || isComment text) eqn:Hb.
  - unfold parsedPoint, parseFailure. rewrite Hb. reflexivity.
  - destruct (parsedPoint_or_failure text (Prog2.lineIndex st) Hb)
      as [(p & E1 & E2 & E3)|(e & E1 & E2 & E3)];
      rewrite E1, E2, ?E3; reflexivity.
Qed.

Lemma countF_snoc (acc : list Point) (p : Point) :
  countF (List.length (acc ++ [p])) = countF (List.length acc) + 1.
Proof. rewrite length_app, Nat.add_comm. reflexivity. Qed.

(** The loop, from a state whose counter is the number of its points. *)
Lemma readLines_value (filename : string) (texts : list string) :
  forall acc : list Point,
    Prog2.readLines filename
      {| Prog2.points := acc; Prog2.lineIndex := countF (List.length acc) |}
      texts
    = (map (diagnostic filename) (failuresOfLines acc texts),
       Done {| Prog2.points := pointsOfLines acc texts;
               Prog2.lineIndex :=
                 countF (List.length (pointsOfLines acc texts)) |}).
Proof.
  induction texts as [|text rest IH]; intros acc; [reflexivity|].
  cbn [Prog2.readLines pointsOfLines failuresOfLines].
  rewrite readLine_value. cbn [Prog2.lineIndex Prog2.points].
  destruct (parsedPoint text _) as [p|].
  - cbn [bind]. rewrite <- (countF_snoc acc p), IH. reflexivity.
  - destruct (parseFailure text _) as [e|]; cbn [bind]; rewrite IH; reflexivity.
Qed.

Lemma readData_value (w : World) (filename : string) :
  Prog2.readData w filename =
  match readFile w filename with
  | OpenFails err => ([], Done (Err (Errorf "open file: %w" [ArgE err])))
  | Scans texts serr =>
      (map (diagnostic filename) (failuresOfLines [] texts),
       Done match serr with
            | Some err => Err (Errorf "scan file: %w" [ArgE err])
            | None => Ok (pointsOfLines [] texts)
            end)
  end.
Proof.
  unfold Prog2.readData. destruct (readFile w filename) as [err|texts serr];
    [reflexivity|].
  change 0 with (countF (List.length (@nil Point))).
  rewrite readLines_value. cbn [bind].
  destruct serr; cbn; now rewrite app_nil_r.
Qed.

End Ingestion2.

(* ================================================================== *)
(** ** The ingestion loop of the first program *)
(* ================================================================== *)

Section Ingestion1.
Context {lib : GoLib}.

(** One turn of the loop of [readDataFromFile]. *)
Lemma readLine1_value (st : Prog1.ingest) (line : string) :
  Prog1.readLine st line =
  let count' := wrap64 (Prog1.lineCount st + 1) in
  match takenPoint line (Prog1.lineNumber st) with
  | Some p =>
      ([], Done {| Prog1.points := Prog1.points st ++ [p];
                   Prog1.lineNumber := Prog1.lineNumber st + 1;
                   Prog1.lineCount := count' |})
  | None =>
      ((if reported line (Prog1.lineNumber st)
        then [diagnostic1 (count', line)] else []),
       Done {| Prog1.points := Prog1.points st;
               Prog1.lineNumber := Prog1.lineNumber st;
               Prog1.lineCount := count' |})
  end.
Proof.
  unfold Prog1.readLine, takenPoint, reported, takenPoint.
  destruct (HasPrefix line "#" || HasPrefix line "%" || HasPrefix line "/");
    [reflexivity|].
  destruct (Fields line) as [|f0 [|f1 fs]]; cbn; [reflexivity| |].
  - destruct (ParseFloat f0); reflexivity.
  - destruct (ParseFloat f0); [|reflexivity].
    destruct (ParseFloat f1); reflexivity.
Qed.

Lemma readLines1_value (lines : list string) :
  forall (acc : list Point) (count : Z),
    Prog1.readLines
      {| Prog1.points := acc;
         Prog1.lineNumber := countF (List.length acc);
         Prog1.lineCount := count |} lines
    = (map diagnostic1 (reportedLines acc count lines),
       Done {| Prog1.points := pointsOfLines1 acc lines;
               Prog1.lineNumber :=
                 countF (List.length (pointsOfLines1 acc lines));
               Prog1.lineCount := countOf count lines |}).
Proof.
  induction lines as [|line rest IH]; intros acc count; [reflexivity|].
  cbn [Prog1.readLines pointsOfLines1 reportedLines countOf].
  rewrite readLine1_value.
  cbn [Prog1.lineNumber Prog1.points Prog1.lineCount].
  destruct (takenPoint line _) as [p|].
  - cbn [bind]. rewrite <- (countF_snoc acc p), IH. reflexivity.
  - cbn [bind]. rewrite IH.
    destruct (reported line _); reflexivity.
Qed.

Lemma readDataFromFile_value (w : World) (filename : string) :
  Prog1.readDataFromFile w filename =
  match readFile w filename with
  | OpenFails err =>
      ([], Done (Err (Errorf "failed to open file: %v" [ArgE err])))
  | Scans lines serr =>
      (map diagnostic1 (reportedLines [] 0 lines),
       Done match serr with
            | Some err => Err (Errorf "error reading file: %v" [ArgE err])
            | None => Ok (pointsOfLines1 [] lines)
            end)
  end.
Proof.
  unfold Prog1.readDataFromFile.
  destruct (readFile w filename) as [err|lines serr]; [reflexivity|].
  change 0.0 with (countF (List.length (@nil Point))).
  rewrite readLines1_value. cbn [bind].
  destruct serr; cbn; now rewrite app_nil_r.
Qed.

End Ingestion1.

(* ================================================================== *)
(** ** Single lines, for the examples *)
(* ================================================================== *)

Section Lines.
Context {lib : GoLib}.

Lemma parsedPoint_skip (text : string) (counter : float) :
  blankOrComment (TrimSpace text) = true ->
  parsedPoint text counter = None /\ parseFailure text counter = None.
Proof.
  rewrite blankOrComment_TrimSpace. unfold parsedPoint, parseFailure.
  now intros ->.
Qed.

Lemma parsedPoint_one (text : string) (counter : float) (f : string) (y : float) :
  blankOrComment (TrimSpace text) = false ->
  Fields text = [f] ->
  ParseFloat f = Some y ->
  parsedPoint text counter = Some {| X := counter; Y := y |}.
Proof.
  rewrite blankOrComment_TrimSpace. unfold parsedPoint. intros -> Hf Hy.
  now rewrite parseLine_fields, Fields_TrimSpace, Hf, Hy.
Qed.

Lemma parsedPoint_two (text : string) (counter : float) (f0 f1 : string)
      (x y : float) :
  blankOrComment (TrimSpace text) = false ->
  Fields text = [f0; f1] ->
  ParseFloat f0 = Some x -> ParseFloat f1 = Some y ->
  parsedPoint text counter = Some {| X := x; Y := y |}.
Proof.
  rewrite blankOrComment_TrimSpace. unfold parsedPoint. intros -> Hf Hx Hy.
  now rewrite parseLine_fields, Fields_TrimSpace, Hf, Hx, Hy.
Qed.

Lemma parseFailure_count (text : string) (counter : float) :
  blankOrComment (TrimSpace text) = false ->
  (3 <= List.length (Fields text))%nat ->
  parsedPoint text counter = None
  /\ parseFailure text counter
     = Some (UnsupportedFormat (List.length (Fields text))).
Proof.
  rewrite blankOrComment_TrimSpace. unfold parsedPoint, parseFailure.
  intros -> Hn. rewrite parseLine_fields, Fields_TrimSpace.
  destruct (Fields text) as [|f0 [|f1 [|f2 fs]]]; cbn in Hn; try lia.
  split; reflexivity.
Qed.

Lemma parseFailure_invalid (text : string) (counter : float) (f : string) :
  blankOrComment (TrimSpace text) = false ->
  Fields text = [f] ->
  ParseFloat f = None ->
  parsedPoint text counter = None
  /\ parseFailure text counter = Some (InvalidValue CoordY f).
Proof.
  rewrite blankOrComment_TrimSpace. unfold parsedPoint, parseFailure.
  intros -> Hf Hy. now rewrite parseLine_fields, Fields_TrimSpace, Hf, Hy.
Qed.

Lemma takenPoint_comment (line : string) (counter : float) :
  HasPrefix line "#" || HasPrefix line "%" || HasPrefix line "/" = true ->
  takenPoint line counter = None /\ reported line counter = false.
Proof. unfold reported, takenPoint. now intros ->. Qed.

Lemma takenPoint_one (line : string) (counter : float) (f : string) (y : float) :
  HasPrefix line "#" || HasPrefix line "%" || HasPrefix line "/" = false ->
  Fields line = [f] ->
  ParseFloat f = Some y ->
  takenPoint line counter = Some {| X := counter; Y := y |}.
Proof. unfold takenPoint. intros -> -> ->. reflexivity. Qed.

Lemma takenPoint_more (line : string) (counter : float) (f0 f1 : string)
      (fs : list string) (x y : float) :
  HasPrefix line "#" || HasPrefix line "%" || HasPrefix line "/" = false ->
  Fields line = f0 :: f1 :: fs ->
  ParseFloat f0 = Some x -> ParseFloat f1 = Some y ->
  takenPoint line counter = Some {| X := x; Y := y |}.
Proof. unfold takenPoint. intros -> -> -> ->. reflexivity. Qed.

Lemma takenPoint_bad (line : string) (counter : float) (f0 : string)
      (fs : list string) :
  HasPrefix line "#" || HasPrefix line "%" || HasPrefix line "/" = false ->
  Fields line = f0 :: fs ->
  ParseFloat f0 = None ->
  takenPoint line counter = None /\ reported line counter = true.
Proof.
  unfold reported, takenPoint. intros -> -> ->.
  destruct fs; split; reflexivity.
Qed.

End Lines.

(* ================================================================== *)
(** ** Containment and letter case *)
(* ================================================================== *)

Section Containment.

Lemma prefix_iff (sub s : string) :
  String.prefix sub s = true <-> exists post, s = (sub ++ post)%string.
Proof.
  revert s. induction sub as [|a sub IH]; intros s.
  - destruct s; cbn; split; eauto.
  - destruct s as [|b s]; cbn.
    + split; [discriminate | intros (post & E); discriminate].
    + destruct (ascii_dec a b) as [->|N].
      * rewrite IH. split; intros (post & E); exists post.
        -- now rewrite E.
        -- now injection E.
      * split; [discriminate|]. intros (post & E). injection E as E _.
        now elim N.
Qed.

Lemma Contains_iff (s sub : string) :
  Contains s sub = true <-> containsExact s sub.
Proof.
  unfold containsExact. induction s as [|c s IH].
  - cbn [Contains]. rewrite orb_false_r, prefix_iff. split.
    + intros (post & E). now exists "", post.
    + intros (pre & post & E). destruct pre; [now exists post | discriminate].
  - cbn [Contains]. rewrite orb_true_iff, prefix_iff, IH. split.
    + intros [(post & E)|(pre & post & E)].
      * now exists "", post.
      * exists (String c pre), post. cbn. now rewrite E.
    + intros ([|d pre] & post & E).
      * left. now exists post.
      * right. injection E as _ E. now exists pre, post.
Qed.

Lemma lowerASCII_app (a b : string) :
  lowerASCII (a ++ b) = (lowerASCII a ++ lowerASCII b)%string.
Proof. induction a as [|c a IH]; cbn; [reflexivity | now rewrite IH]. Qed.

Lemma lowerASCII_split (s a b : string) :
  lowerASCII s = (a ++ b)%string ->
  exists s1 s2, s = (s1 ++ s2)%string /\ lowerASCII s1 = a /\ lowerASCII s2 = b.
Proof.
  revert s. induction a as [|c a IH]; intros s E.
  - now exists "", s.
  - destruct s as [|d s]; [discriminate|]. cbn in E. injection E as Ec E.
    destruct (IH s E) as (s1 & s2 & -> & <- & <-).
    exists (String d s1), s2. cbn. now rewrite Ec.
Qed.

Lemma lowerASCII_noUpper (s : string) : hasUpper s = false -> lowerASCII s = s.
Proof.
  induction s as [|c s IH]; [reflexivity|]. cbn [hasUpper lowerASCII].
  intros E. apply orb_false_elim in E. destruct E as (Ec & Es).
  unfold lowerByte. rewrite Ec, IH by assumption. reflexivity.
Qed.

Lemma ToLower_ASCII {lib : GoLib} (s : string) :
  isASCII s = true -> ToLower s = lowerASCII s.
Proof.
  intros Ha. unfold ToLower. rewrite Ha.
  destruct (hasUpper s) eqn:Hu; [reflexivity|].
  now rewrite lowerASCII_noUpper.
Qed.

(** Looking for a lower-case pattern in the lower-cased string is looking
    for the pattern with letter case ignored. *)
Lemma Contains_lowerASCII (s pat : string) :
  lowerASCII pat = pat ->
  Contains (lowerASCII s) pat = true <-> containsFold s pat.
Proof.
  intros Hp. rewrite Contains_iff. unfold containsExact, containsFold. split.
  - intros (pre & post & E).
    apply lowerASCII_split in E. destruct E as (s1 & s2 & -> & <- & E).
    apply lowerASCII_split in E. destruct E as (s3 & s4 & -> & E & <-).
    exists s1, s3, s4. split; [reflexivity|]. now rewrite Hp.
  - intros (pre & mid & post & -> & E).
    exists (lowerASCII pre), (lowerASCII post).
    now rewrite !lowerASCII_app, E, Hp.
Qed.

End Containment.

(* ================================================================== *)
(** ** Runs *)
(* ================================================================== *)

Section Runs.
Context {lib : GoLib}.

Lemma pointsOfLines_skipped (texts : list string) (acc : list Point) :
  (forall text, In text texts -> isBlank text = true \/ isComment text = true) ->
  pointsOfLines acc texts = acc /\ failuresOfLines acc texts = [].
Proof.
  induction texts as [|text rest IH]; intros Hall; [split; reflexivity|].
  cbn [pointsOfLines failuresOfLines].
  destruct (parsedPoint_skip text (countF (List.length acc))) as (-> & ->).
  - rewrite blankOrComment_TrimSpace. apply orb_true_iff.
    apply Hall. now left.
  - apply IH. intros t Ht. apply Hall. now right.
Qed.

(** Every line is blank or a comment, gives a point, or is reported. *)
Lemma lines_accounted (texts : list string) :
  forall acc,
    (List.length (pointsOfLines acc texts)
     + List.length (failuresOfLines acc texts)
     + List.length (filter (fun t => isBlank t || isComment t) texts)
     = List.length acc + List.length texts)%nat.
Proof.
  induction texts as [|text rest IH]; intros acc; cbn [pointsOfLines
    failuresOfLines filter List.length]; [lia|].
  destruct (isBlank text || isComment text) eqn:Hb.
  - destruct (parsedPoint_skip text (countF (List.length acc))) as (-> & ->);
      [now rewrite blankOrComment_TrimSpace|].
    cbn [List.length]. specialize (IH acc). lia.
  - destruct (parsedPoint_or_failure text (countF (List.length acc)) Hb)
      as [(p & _ & -> & _)|(e & _ & -> & ->)].
    + specialize (IH (acc ++ [p])). rewrite length_app in IH. cbn in IH. lia.
    + cbn [List.length]. specialize (IH acc). lia.
Qed.

Lemma diagnostics_quiet (filename : string) (l : list (nat * error)) :
  existsb isSixelOut (map (diagnostic filename) l) = false
  /\ existsb isSavedPlot (map (diagnostic filename) l) = false.
Proof. induction l as [|f l (IH1 & IH2)]; cbn; auto. Qed.

Lemma diagnostics1_quiet (l : list (Z * string)) :
  existsb isSixelOut (map diagnostic1 l) = false
  /\ existsb isSavedPlot (map diagnostic1 l) = false.
Proof. induction l as [|f l (IH1 & IH2)]; cbn; auto. Qed.

(** [run] after [readData] has returned. *)
Lemma run_after_readData (w : World) (cfg : Prog2.Config) (t : list event)
      (r : result (list Point)) :
  Prog2.readData w (Prog2.Input cfg) = (t, Done r) ->
  Prog2.run w cfg =
  bind (t, Done r) (fun r =>
    match r with
    | Err err =>
        ret (Some (Errorf "reading data from %q: %w"
                     [ArgS (Prog2.Input cfg); ArgE err]))
    | Ok pts =>
        if (List.length pts =? 0)%nat
        then ret (Some (EmptyDatasetError (Prog2.Input cfg)))
        else
          let outFile := Prog2.outFileName (Prog2.Input cfg) in
          e <- Prog2.createPlot w pts outFile cfg ;;
          match e with
          | Some err => ret (Some (Errorf "creating plot: %w" [ArgE err]))
          | None =>
              emit (LogPrintf "Plot saved to: %s" [ArgS outFile]) ;;;
              e' <- Prog2.displaySixel w outFile cfg ;;
              match e' with
              | Some err => ret (Some (Errorf "displaying SIXEL: %w" [ArgE err]))
              | None => ret None
              end
          end
    end).
Proof. intros E. unfold Prog2.run. now rewrite E. Qed.

Lemma readData_returns (w : World) (filename : string) :
  exists t r, Prog2.readData w filename = (t, Done r)
              /\ existsb isSixelOut t = false
              /\ existsb isSavedPlot t = false.
Proof.
  rewrite readData_value. destruct (readFile w filename) as [e|texts serr].
  - eexists _, _. repeat split.
  - eexists _, _. split; [reflexivity|]. apply diagnostics_quiet.
Qed.

Lemma readDataFromFile_returns (w : World) (filename : string) :
  exists t r, Prog1.readDataFromFile w filename = (t, Done r)
              /\ existsb isSixelOut t = false
              /\ existsb isSavedPlot t = false.
Proof.
  rewrite readDataFromFile_value.
  destruct (readFile w filename) as [e|texts serr].
  - eexists _, _. repeat split.
  - eexists _, _. split; [reflexivity|]. apply diagnostics1_quiet.
Qed.

End Runs.

(* ================================================================== *)
(** ** Comment marks and white space *)
(* ================================================================== *)

Section Marks.
Context {lib : GoLib}.

Lemma HasPrefix_byte (c d : ascii) (r : string) :
  HasPrefix (String c r) (String d "") = Ascii.eqb d c.
Proof.
  unfold HasPrefix. cbn. destruct (ascii_dec d c) as [->|N].
  - rewrite Ascii.eqb_refl. now destruct r.
  - symmetry. now apply Ascii.eqb_neq.
Qed.

(** '#', '%' and '/' begin no white-space rune. *)
Lemma mark_not_space (c : ascii) (r : string) :
  c = "#"%char \/ c = "%"%char \/ c = "/"%char ->
  spaceWidth (String c r) = 0%nat.
Proof.
  intros [->|[->| ->]]; destruct r as [|c1 [|c2 r]]; reflexivity.
Qed.

Lemma onlyWhiteSpace_Fields (text : string) :
  onlyWhiteSpace text = true <-> Fields text = [].
Proof. unfold onlyWhiteSpace, Fields. symmetry. apply fieldsOf_nil. Qed.

Lemma onlyWhiteSpace_ascii (text : string) :
  (forall c, In c (list_ascii_of_string text) -> asciiSpace c = true) ->
  onlyWhiteSpace text = true.
Proof.
  unfold onlyWhiteSpace. induction text as [|c r IH]; intros Hall;
    [reflexivity|].
  assert (Hc : asciiSpace c = true) by (apply Hall; now left).
  assert (Es : scan (String c r) = Sp (String c "") :: scan r).
  { rewrite scan_cut, cut_spaceWidth. unfold spaceWidth. rewrite Hc.
    reflexivity. }
  rewrite Es. cbn. apply IH. intros d Hd. apply Hall. now right.
Qed.

Lemma onlyWhiteSpace_no_mark (line : string) :
  onlyWhiteSpace line = true ->
  HasPrefix line "#" || HasPrefix line "%" || HasPrefix line "/" = false.
Proof.
  destruct line as [|c r]; [reflexivity|].
  rewrite !HasPrefix_byte. intros Hw.
  destruct (Ascii.eqb "#" c) eqn:E1; [apply Ascii.eqb_eq in E1|];
    [|destruct (Ascii.eqb "%" c) eqn:E2; [apply Ascii.eqb_eq in E2|]];
    [| |destruct (Ascii.eqb "/" c) eqn:E3; [apply Ascii.eqb_eq in E3|]];
    try reflexivity; exfalso; subst c;
    unfold onlyWhiteSpace in Hw;
    rewrite scan_cut, cut_spaceWidth, mark_not_space in Hw by tauto;
    discriminate Hw.
Qed.

End Marks.

(** Takes the answers of the collaborators one by one. *)
Ltac answer :=
  match goal with
  | |- context [NewLine ?w ?a] => destruct (NewLine w a) eqn:?
  | |- context [NewScatter ?w ?a] => destruct (NewScatter w a) eqn:?
  | |- context [Save ?w ?a ?b ?c ?d] => destruct (Save w a b c d) eqn:?
  | |- context [Prog2.isSixelSupported ?t] =>
      destruct (Prog2.isSixelSupported t) eqn:?
  | |- context [Prog1.isSixelSupported ?t] =>
      destruct (Prog1.isSixelSupported t) eqn:?
  | |- context [openImage ?w ?a] => destruct (openImage w a) eqn:?
  | |- context [Decode ?w ?a] => destruct (Decode w a) eqn:?
  | |- context [Prog2.encoderSize ?c] =>
      destruct (Prog2.encoderSize c) as [? ?] eqn:?
  | |- context [Prog1.encoderSize ?c] =>
      destruct (Prog1.encoderSize c) as [? ?] eqn:?
  | |- context [Encode ?w ?a ?b ?c] => destruct (Encode w a b c) eqn:?
  end.

Ltac step_io :=
  cbn [bind ret emit exit fst snd app negb andb orb List.length Nat.eqb].

Ltac crunch := repeat (step_io; answer); step_io.

(* ================================================================== *)
(** ** The claims *)
(* ================================================================== *)

(** C1.  For every line (trimmed or not) and every [lineIndex]: when the
    split on white space gives exactly one field and it is a valid float
    literal [y], [parseLine] succeeds with [Point{X: lineIndex, Y: y}]; when
    it gives exactly two fields that are valid float literals [x] and [y],
    [parseLine] succeeds with [Point{X: x, Y: y}]. *)
Theorem parseLine_builds_point {lib : GoLib} (line : string) (lineIndex : float) :
  (forall f y,
      Fields line = [f] -> ParseFloat f = Some y ->
      Prog2.parseLine line lineIndex = Some (Ok {| X := lineIndex; Y := y |}))
  /\ (forall f0 f1 x y,
         Fields line = [f0; f1] ->
         ParseFloat f0 = Some x -> ParseFloat f1 = Some y ->
         Prog2.parseLine line lineIndex = Some (Ok {| X := x; Y := y |})).
Proof.
  split.
  - intros f y Hf Hy. now rewrite parseLine_fields, Hf, Hy.
  - intros f0 f1 x y Hf Hx Hy. now rewrite parseLine_fields, Hf, Hx, Hy.
Qed.

Lemma parseLine_builds_point_witness :
  @Prog2.parseLine decimalOnly "42" 7 = Some (Ok {| X := 7; Y := 42 |})
  /\ @Prog2.parseLine decimalOnly "3	4" 0 = Some (Ok {| X := 3; Y := 4 |}).
Proof.
  split.
  - apply (proj1 (@parseLine_builds_point decimalOnly "42" 7) "42" 42);
      reflexivity.
  - apply (proj2 (@parseLine_builds_point decimalOnly "3	4" 0) "3" "4" 3 4);
      reflexivity.
Defined.

(** C2.  [parseLine] always returns, and it fails exactly so: with
    [UnsupportedFormat] carrying the number of fields when, and only when,
    there are none or three or more; with [InvalidValue] naming Y when the
    one field, or the second of two after a valid first, is no valid float
    literal, and naming X when the first of two is none; it succeeds when,
    and only when, there are one or two fields and each is valid. *)
Theorem parseLine_failure_cases {lib : GoLib} (line : string) (lineIndex : float) :
  let n := List.length (Fields line) in
  (exists r, Prog2.parseLine line lineIndex = Some r)
  /\ ((n = 0 \/ 3 <= n)%nat <->
      Prog2.parseLine line lineIndex = Some (Err (UnsupportedFormat n)))
  /\ (forall which field,
         Prog2.parseLine line lineIndex = Some (Err (InvalidValue which field)) <->
         (which = CoordY /\ Fields line = [field] /\ ~ validFloat field)
         \/ (which = CoordX /\
             exists f1, Fields line = [field; f1] /\ ~ validFloat field)
         \/ (which = CoordY /\
             exists f0, Fields line = [f0; field]
                        /\ validFloat f0 /\ ~ validFloat field))
  /\ ((exists p, Prog2.parseLine line lineIndex = Some (Ok p)) <->
      (n = 1 \/ n = 2)%nat /\ Forall validFloat (Fields line))
  /\ (forall e,
         Prog2.parseLine line lineIndex = Some (Err e) ->
         e = UnsupportedFormat n
         \/ exists which field, e = InvalidValue which field /\ In field (Fields line)).
Proof.
  cbv zeta. rewrite parseLine_fields.
  destruct (Fields line) as [|f0 [|f1 [|f2 fs]]] eqn:Ef; cbn [List.length].
  - (* no field *)
    split; [eauto|]. split; [split; [reflexivity | intros _; left; reflexivity]|].
    split.
    { intros which field. split.
      - destruct which; discriminate.
      - intros [(_ & E & _)|[(_ & f & E & _)|(_ & f & E & _)]]; discriminate. }
    split.
    { split; [intros (p & E); discriminate | intros ([E|E] & _); discriminate]. }
    intros e E. injection E as <-. now left.
  - (* one field *)
    pose proof (validFloat_None f0) as Hv.
    destruct (ParseFloat f0) as [y|] eqn:Ey.
    + split; [eauto|]. split; [split; [intros [E|E]; lia | discriminate]|].
      split.
      { intros which field. split; [discriminate|].
        intros [(_ & E & N)|[(_ & f & E & _)|(_ & f & E & _)]];
          try discriminate.
        injection E as <-. elim N. exists y. exact Ey. }
      split.
      { split; [intros _|eauto]. split; [now left|].
        repeat constructor. exists y. exact Ey. }
      discriminate.
    + split; [eauto|]. split; [split; [intros [E|E]; lia | discriminate]|].
      split.
      { intros which field. split.
        - destruct which; intros E; [discriminate|].
          injection E as <-. left. repeat split. now apply Hv.
        - intros [(-> & E & _)|[(_ & f & E & _)|(_ & f & E & _)]];
            try discriminate.
          now injection E as <-. }
      split.
      { split; [intros (p & E); discriminate|].
        intros (_ & Hall). inversion Hall as [|? ? (v & Hv') _]; subst.
        rewrite Ey in Hv'. discriminate. }
      intros e E. injection E as <-. right. exists CoordY, f0.
      split; [reflexivity | now left].
  - (* two fields *)
    pose proof (validFloat_None f0) as Hv0.
    pose proof (validFloat_None f1) as Hv1.
    destruct (ParseFloat f0) as [x|] eqn:Ex.
    + destruct (ParseFloat f1) as [y|] eqn:Ey.
      * split; [eauto|]. split; [split; [intros [E|E]; lia | discriminate]|].
        split.
        { intros which field. split; [discriminate|].
          intros [(_ & E & _)|[(_ & f & E & N)|(_ & f & E & _ & N)]];
            try discriminate; injection E as <- <-; elim N.
          - exists x. exact Ex.
          - exists y. exact Ey. }
        split.
        { split; [intros _|eauto]. split; [now right|].
          repeat constructor; [exists x | exists y]; assumption. }
        discriminate.
      * split; [eauto|]. split; [split; [intros [E|E]; lia | discriminate]|].
        split.
        { intros which field. split.
          - destruct which; intros E; [discriminate|].
            injection E as <-. right. right. split; [reflexivity|].
            exists f0. repeat split; [exists x; exact Ex | now apply Hv1].
          - intros [(_ & E & _)|[(_ & f & E & N)|(-> & f & E & _)]];
              try discriminate.
            + injection E as <- <-. elim N. exists x. exact Ex.
            + now injection E as <- <-. }
        split.
        { split; [intros (p & E); discriminate|].
          intros (_ & Hall). inversion Hall as [|? ? _ Hall']; subst.
          inversion Hall' as [|? ? (v & Hv') _]; subst.
          rewrite Ey in Hv'. discriminate. }
        intros e E. injection E as <-. right. exists CoordY, f1.
        split; [reflexivity | right; now left].
    + split; [eauto|]. split; [split; [intros [E|E]; lia | discriminate]|].
      split.
      { intros which field. split.
        - destruct which; intros E; [|discriminate].
          injection E as <-. right. left. split; [reflexivity|].
          exists f1. split; [reflexivity | now apply Hv0].
        - intros [(_ & E & _)|[(-> & f & E & _)|(_ & f & E & (v & Hv) & _)]];
            try discriminate.
          + now injection E as <- <-.
          + injection E as <- <-. rewrite Ex in Hv. discriminate. }
      split.
      { split; [intros (p & E); discriminate|].
        intros (_ & Hall). inversion Hall as [|? ? (v & Hv') _]; subst.
        rewrite Ex in Hv'. discriminate. }
      intros e E. injection E as <-. right. exists CoordX, f0.
      split; [reflexivity | now left].
  - (* three fields or more *)
    split; [eauto|].
    split; [split; [reflexivity | intros _; right; lia]|].
    split.
    { intros which field. split.
      - destruct which; discriminate.
      - intros [(_ & E & _)|[(_ & f & E & _)|(_ & f & E & _)]]; discriminate. }
    split.
    { split; [intros (p & E); discriminate | intros ([E|E] & _); discriminate]. }
    intros e E. injection E as <-. now left.
Qed.

Lemma parseLine_failure_cases_witness :
  @Prog2.parseLine decimalOnly "1 2 3" 0 = Some (Err (UnsupportedFormat 3))
  /\ @Prog2.parseLine decimalOnly "1 x" 0 = Some (Err (InvalidValue CoordY "x")).
Proof.
  split.
  - apply (proj1 (proj2 (@parseLine_failure_cases decimalOnly "1 2 3" 0))).
    right. vm_compute. lia.
  - apply (proj1 (proj2 (proj2 (@parseLine_failure_cases decimalOnly "1 x" 0)))).
    right. right. split; [reflexivity|]. exists "1". split; [reflexivity|].
    split; [exists 1; reflexivity | intros (v & E); discriminate E].
Defined.

(** C3.  In both programs the synthetic X counter is 0.0 incremented once
    for each point appended so far, which up to 2^53 points is the number
    of points as a [float64].  One turn of the loop either appends the
    point the line parses into and adds exactly 1.0 to the counter, or
    leaves points and counter as they were; the second holds for blank
    lines, comment lines and malformed lines.  The lines "# header", "10",
    "20" give the points {0,10} and {1,20}. *)
Theorem counter_counts_points {lib : GoLib} :
  (forall filename st text,
      exists t st',
        Prog2.readLine filename st text = (t, Done st')
        /\ match parsedPoint text (Prog2.lineIndex st) with
           | Some p =>
               Prog2.points st' = Prog2.points st ++ [p]
               /\ Prog2.lineIndex st' = Prog2.lineIndex st + 1
           | None => st' = st
           end)
  /\ (forall text counter,
         isBlank text = true \/ isComment text = true
         \/ (exists e, parseFailure text counter = Some e) ->
         parsedPoint text counter = None)
  /\ (forall filename seen,
         exists t st',
           Prog2.readLines filename
             {| Prog2.points := []; Prog2.lineIndex := 0 |} seen = (t, Done st')
           /\ Prog2.lineIndex st' = countF (List.length (Prog2.points st'))
           /\ ((Z.of_nat (List.length (Prog2.points st')) <= 2 ^ 53)%Z ->
               Prog2.lineIndex st'
               = float64_of_int (Z.of_nat (List.length (Prog2.points st')))))
  /\ (forall st line,
         exists t st',
           Prog1.readLine st line = (t, Done st')
           /\ match takenPoint line (Prog1.lineNumber st) with
              | Some p =>
                  Prog1.points st' = Prog1.points st ++ [p]
                  /\ Prog1.lineNumber st' = Prog1.lineNumber st + 1
              | None =>
                  Prog1.points st' = Prog1.points st
                  /\ Prog1.lineNumber st' = Prog1.lineNumber st
              end)
  /\ (forall seen,
         exists t st',
           Prog1.readLines
             {| Prog1.points := []; Prog1.lineNumber := 0; Prog1.lineCount := 0 |}
             seen = (t, Done st')
           /\ Prog1.lineNumber st' = countF (List.length (Prog1.points st'))
           /\ ((Z.of_nat (List.length (Prog1.points st')) <= 2 ^ 53)%Z ->
               Prog1.lineNumber st'
               = float64_of_int (Z.of_nat (List.length (Prog1.points st')))))
  /\ (forall n,
         (Z.of_nat n <= 2 ^ 53)%Z -> countF n = float64_of_int (Z.of_nat n))
  /\ (ParseFloat "10" = Some 10 -> ParseFloat "20" = Some 20 ->
      forall w filename,
        readFile w filename = Scans ["# header"; "10"; "20"] None ->
        Prog2.readData w filename
        = ([], Done (Ok [{| X := 0; Y := 10 |}; {| X := 1; Y := 20 |}]))
        /\ Prog1.readDataFromFile w filename
           = ([], Done (Ok [{| X := 0; Y := 10 |}; {| X := 1; Y := 20 |}]))).
Proof.
  split.
  { intros filename st text. rewrite readLine_value.
    destruct (parsedPoint text _) as [p|]; [|destruct (parseFailure text _)];
      eexists _, _; split; try reflexivity. split; reflexivity. }
  split.
  { intros text counter. unfold parsedPoint, parseFailure.
    destruct (isBlank text || isComment text) eqn:Hb; [reflexivity|].
    apply orb_false_elim in Hb. destruct Hb as (Hb & Hc).
    intros [E|[E|(e & E)]]; try congruence.
    destruct (Prog2.parseLine _ _) as [[p|e']|]; [discriminate|reflexivity..]. }
  split.
  { intros filename seen.
    change 0 with (countF (List.length (@nil Point))).
    rewrite readLines_value. eexists _, _. split; [reflexivity|].
    split; [reflexivity|]. cbn [Prog2.lineIndex Prog2.points].
    apply countF_exact. }
  split.
  { intros st line. rewrite readLine1_value. cbv zeta.
    destruct (takenPoint line _) as [p|];
      eexists _, _; split; try reflexivity; split; reflexivity. }
  split.
  { intros seen.
    change 0 with (countF (List.length (@nil Point))).
    rewrite readLines1_value. eexists _, _. split; [reflexivity|].
    split; [reflexivity|]. cbn [Prog1.lineNumber Prog1.points].
    apply countF_exact. }
  split; [exact countF_exact|].
  intros H10 H20 w filename Hfile.
  rewrite readData_value, readDataFromFile_value, Hfile. split.
  - cbn [failuresOfLines pointsOfLines].
    destruct (parsedPoint_skip "# header" (countF (List.length (@nil Point))))
      as (-> & ->); [reflexivity|].
    rewrite (parsedPoint_one "10" _ "10" 10) by (reflexivity || assumption).
    cbn [app].
    rewrite (parsedPoint_one "20" _ "20" 20) by (reflexivity || assumption).
    reflexivity.
  - cbn [reportedLines pointsOfLines1].
    destruct (takenPoint_comment "# header" (countF (List.length (@nil Point))))
      as (-> & ->); [reflexivity|].
    rewrite (takenPoint_one "10" _ "10" 10) by (reflexivity || assumption).
    cbn [app].
    rewrite (takenPoint_one "20" _ "20" 20) by (reflexivity || assumption).
    reflexivity.
Qed.

Lemma counter_counts_points_witness :
  @Prog2.readData decimalOnly (quietWorld "" ["# header"; "10"; "20"]) "data.txt"
  = ([], Done (Ok [{| X := 0; Y := 10 |}; {| X := 1; Y := 20 |}]))
  /\ @Prog1.readDataFromFile decimalOnly
       (quietWorld "" ["# header"; "10"; "20"]) "data.txt"
     = ([], Done (Ok [{| X := 0; Y := 10 |}; {| X := 1; Y := 20 |}])).
Proof.
  apply (proj2 (proj2 (proj2 (proj2 (proj2 (proj2
           (@counter_counts_points decimalOnly)))))));
    reflexivity.
Defined.

(** C4.  A malformed line never aborts ingestion.  Whatever lines the
    scanner delivers, [readData] goes through all of them, logs one
    diagnostic for each line that is neither blank nor a comment and fails
    to parse, and, unless the scanner itself reports a fault, returns no
    error and exactly the points of the successfully parsed lines in file
    order; so does [readDataFromFile].  Every line is accounted for: it is
    blank or a comment, or gives a point, or a diagnostic.  The lines
    "1 2", "bad line here", "3 4" give {1,2} and {3,4} with one
    diagnostic. *)
Theorem malformed_lines_are_skipped {lib : GoLib} :
  (forall w filename texts serr,
      readFile w filename = Scans texts serr ->
      Prog2.readData w filename
      = (map (diagnostic filename) (failuresOfLines [] texts),
         Done match serr with
              | Some err => Err (Errorf "scan file: %w" [ArgE err])
              | None => Ok (pointsOfLines [] texts)
              end))
  /\ (forall w filename lines serr,
         readFile w filename = Scans lines serr ->
         Prog1.readDataFromFile w filename
         = (map diagnostic1 (reportedLines [] 0 lines),
            Done match serr with
                 | Some err => Err (Errorf "error reading file: %v" [ArgE err])
                 | None => Ok (pointsOfLines1 [] lines)
                 end))
  /\ (forall texts,
         (List.length (pointsOfLines [] texts)
          + List.length (failuresOfLines [] texts)
          + List.length (filter (fun t => isBlank t || isComment t) texts)
          = List.length texts)%nat)
  /\ (ParseFloat "1" = Some 1 -> ParseFloat "2" = Some 2 ->
      ParseFloat "3" = Some 3 -> ParseFloat "4" = Some 4 ->
      forall w filename,
        readFile w filename = Scans ["1 2"; "bad line here"; "3 4"] None ->
        Prog2.readData w filename
        = ([LogPrintf "Skipping line %.0f in %s: %v"
              [ArgF 2; ArgS filename; ArgE (UnsupportedFormat 3)]],
           Done (Ok [{| X := 1; Y := 2 |}; {| X := 3; Y := 4 |}]))
        /\ (ParseFloat "bad" = None ->
            Prog1.readDataFromFile w filename
            = ([Printf "Parsing error on line %d: %s\n"
                  [ArgI 2; ArgS "bad line here"]],
               Done (Ok [{| X := 1; Y := 2 |}; {| X := 3; Y := 4 |}])))).
Proof.
  split.
  { intros w filename texts serr Hfile. now rewrite readData_value, Hfile. }
  split.
  { intros w filename lines serr Hfile.
    now rewrite readDataFromFile_value, Hfile. }
  split.
  { intros texts. apply (lines_accounted texts []). }
  intros H1 H2 H3 H4 w filename Hfile.
  rewrite readData_value, readDataFromFile_value, Hfile. split.
  - cbn [failuresOfLines pointsOfLines].
    rewrite (parsedPoint_two "1 2" _ "1" "2" 1 2) by (reflexivity || assumption).
    cbn [app].
    destruct (parseFailure_count "bad line here" (countF (List.length [{| X := 1; Y := 2 |}])))
      as (-> & ->); [reflexivity | vm_compute; lia |].
    rewrite (parsedPoint_two "3 4" _ "3" "4" 3 4) by (reflexivity || assumption).
    reflexivity.
  - intros Hbad. cbn [reportedLines pointsOfLines1].
    rewrite (takenPoint_more "1 2" _ "1" "2" [] 1 2) by (reflexivity || assumption).
    cbn [app].
    destruct (takenPoint_bad "bad line here" (countF (List.length [{| X := 1; Y := 2 |}]))
                "bad" ["line"; "here"]) as (-> & ->);
      [reflexivity | reflexivity | assumption |].
    rewrite (takenPoint_more "3 4" _ "3" "4" [] 3 4) by (reflexivity || assumption).
    reflexivity.
Qed.

Lemma malformed_lines_are_skipped_witness :
  @Prog2.readData decimalOnly
     (quietWorld "" ["1 2"; "bad line here"; "3 4"]) "data.txt"
  = ([LogPrintf "Skipping line %.0f in %s: %v"
        [ArgF 2; ArgS "data.txt"; ArgE (UnsupportedFormat 3)]],
     Done (Ok [{| X := 1; Y := 2 |}; {| X := 3; Y := 4 |}])).
Proof.
  apply (proj2 (proj2 (proj2 (@malformed_lines_are_skipped decimalOnly))));
    reflexivity.
Defined.

(** C5.  When ingestion returns without error but with no point, [run]
    returns the error "no valid data points found", which it returns in no
    other case, and [main] ends the process with status 1 before anything
    is plotted; a run that succeeds had at least one point.  So it is for a
    file of comments and blank lines only, and so it is in the first
    program. *)
Theorem empty_dataset_is_fatal {lib : GoLib} :
  (forall w cfg t,
      Prog2.readData w (Prog2.Input cfg) = (t, Done (Ok [])) ->
      Prog2.run w cfg = (t, Done (Some (EmptyDatasetError (Prog2.Input cfg)))))
  /\ (forall w cl input t,
         Prog2.operands cl = [input] ->
         Prog2.readData w input = (t, Done (Ok [])) ->
         Prog2.main w cl
         = (t ++ [LogFatal [ArgE (EmptyDatasetError input)]], Exits 1%Z))
  /\ (forall w cfg t,
         Prog2.run w cfg = (t, Done None) ->
         exists pts,
           pointOutput (Prog2.readData w (Prog2.Input cfg)) = Some pts
           /\ pts <> [])
  /\ (forall w cfg t e,
         Prog2.run w cfg = (t, Done (Some e)) ->
         e = EmptyDatasetError (Prog2.Input cfg) <->
         pointOutput (Prog2.readData w (Prog2.Input cfg)) = Some [])
  /\ (forall w cfg texts,
         readFile w (Prog2.Input cfg) = Scans texts None ->
         (forall text, In text texts -> isBlank text = true \/ isComment text = true) ->
         Prog2.run w cfg = ([], Done (Some (EmptyDatasetError (Prog2.Input cfg)))))
  /\ (forall w filename config t,
         Prog1.readDataFromFile w filename = (t, Done (Ok [])) ->
         Prog1.plotDataToSixel w filename config = (t, Done (Some EmptyDatasetError1)))
  /\ (forall w cl dataPath t,
         Prog1.operands cl = [dataPath] ->
         Prog1.readDataFromFile w dataPath = (t, Done (Ok [])) ->
         Prog1.main w cl
         = (t ++ [Fprintf_Stderr "Error: %v\n" [ArgE EmptyDatasetError1]],
            Exits 1%Z))
  /\ (forall w filename config t,
         Prog1.plotDataToSixel w filename config = (t, Done None) ->
         exists pts,
           pointOutput (Prog1.readDataFromFile w filename) = Some pts
           /\ pts <> []).
Proof.
  split.
  { intros w cfg t E. rewrite (run_after_readData _ _ _ _ E). cbn.
    now rewrite app_nil_r. }
  split.
  { intros w cl input t Hop E. unfold Prog2.main, Prog2.parseFlags.
    rewrite Hop. cbn [bind ret app].
    match goal with
    | |- context [Prog2.run w ?c] =>
        rewrite (run_after_readData w c t (Ok [])) by exact E
    end.
    cbn. now rewrite !app_nil_r. }
  split.
  { intros w cfg t.
    destruct (readData_returns w (Prog2.Input cfg)) as (t0 & r & E & _).
    rewrite (run_after_readData _ _ _ _ E). unfold pointOutput. rewrite E.
    destruct r as [pts|e]; [|cbn; discriminate].
    destruct pts as [|p pts]; [cbn; discriminate|].
    intros _. exists (p :: pts). split; [reflexivity | discriminate]. }
  split.
  { intros w cfg t e.
    destruct (readData_returns w (Prog2.Input cfg)) as (t0 & r & E & _).
    rewrite (run_after_readData _ _ _ _ E). unfold pointOutput. rewrite E.
    destruct r as [pts|e0]; cbn [snd].
    - destruct pts as [|p pts].
      + cbn. intros H. inversion H; subst. tauto.
      + cbn [bind List.length Nat.eqb].
        unfold Prog2.createPlot, Prog2.createPlotters, Prog2.displaySixel.
        crunch; intros H; inversion H; subst;
          (split; intros H'; discriminate H').
    - cbn. intros H. inversion H; subst. split; intros H'; discriminate H'. }
  split.
  { intros w cfg texts Hfile Hall.
    assert (E : Prog2.readData w (Prog2.Input cfg) = ([], Done (Ok []))).
    { rewrite readData_value, Hfile.
      destruct (pointsOfLines_skipped texts [] Hall) as (-> & ->). reflexivity. }
    rewrite (run_after_readData _ _ _ _ E). reflexivity. }
  split.
  { intros w filename config t E. unfold Prog1.plotDataToSixel. rewrite E.
    cbn. now rewrite app_nil_r. }
  split.
  { intros w cl dataPath t Hop E. unfold Prog1.main. rewrite Hop.
    unfold Prog1.plotDataToSixel. rewrite E. cbn. now rewrite !app_nil_r. }
  intros w filename config t.
  destruct (readDataFromFile_returns w filename) as (t0 & r & E & _).
  unfold Prog1.plotDataToSixel, pointOutput. rewrite E.
  destruct r as [pts|e]; [|cbn; discriminate].
  destruct pts as [|p pts]; [cbn; discriminate|].
  intros _. exists (p :: pts). split; [reflexivity | discriminate].
Qed.

Lemma empty_dataset_is_fatal_witness :
  @Prog2.main decimalOnly (quietWorld "xterm" ["# only comments"; "   "; "% here"])
    {| Prog2.opt_w := None; Prog2.opt_h := None; Prog2.opt_s := None;
       Prog2.opt_line_width := None; Prog2.operands := ["data.txt"] |}
  = ([LogFatal [ArgE (EmptyDatasetError "data.txt")]], Exits 1%Z).
Proof.
  apply (proj1 (proj2 (@empty_dataset_is_fatal decimalOnly))
           (quietWorld "xterm" ["# only comments"; "   "; "% here"]) _
           "data.txt" []);
    reflexivity.
Defined.

(** C6, as amended.  [readData] classifies the trimmed line: a line of only
    white space is passed over as blank, with no diagnostic; a line whose
    first character after trimming is '#' or '%' is passed over as a
    comment; the test looks at that first character only, and any other
    line goes to the parser whatever it contains.  [readDataFromFile] also
    passes over a line of only white space, but looks for '#', '%' or '/'
    at the start of the line as scanned: a line whose first field the float
    parser refuses, as it does a comment mark after leading white space, is
    reported as a parsing error. *)
Theorem classification_after_trimming {lib : GoLib} :
  (forall filename st text,
      onlyWhiteSpace text = true ->
      Prog2.readLine filename st text = ([], Done st))
  /\ (forall text,
         (forall c, In c (list_ascii_of_string text) -> asciiSpace c = true) ->
         onlyWhiteSpace text = true)
  /\ (forall filename st text c rest,
         TrimSpace text = String c rest ->
         c = "#"%char \/ c = "%"%char ->
         Prog2.readLine filename st text = ([], Done st))
  /\ (forall c rest rest',
         Prog2.skipped (String c rest) = Prog2.skipped (String c rest'))
  /\ (forall filename st text c rest,
         TrimSpace text = String c rest ->
         c <> "#"%char -> c <> "%"%char ->
         Prog2.readLine filename st text
         = match Prog2.parseLine (String c rest) (Prog2.lineIndex st) with
           | Some (Ok p) =>
               ([], Done {| Prog2.points := Prog2.points st ++ [p];
                            Prog2.lineIndex := Prog2.lineIndex st + 1 |})
           | Some (Err e) =>
               ([LogPrintf "Skipping line %.0f in %s: %v"
                   [ArgF (Prog2.lineIndex st + 1); ArgS filename; ArgE e]],
                Done st)
           | None => ([], Panics)
           end)
  /\ (forall st line,
         onlyWhiteSpace line = true ->
         Prog1.readLine st line = ([], Done (passed st)))
  /\ (forall st c rest,
         c = "#"%char \/ c = "%"%char \/ c = "/"%char ->
         Prog1.readLine st (String c rest) = ([], Done (passed st)))
  /\ (forall st line f0 fs,
         HasPrefix line "#" || HasPrefix line "%" || HasPrefix line "/" = false ->
         Fields line = f0 :: fs ->
         ParseFloat f0 = None ->
         Prog1.readLine st line
         = ([Printf "Parsing error on line %d: %s\n"
               [ArgI (wrap64 (Prog1.lineCount st + 1)); ArgS line]],
            Done (passed st))).
Proof.
  split.
  { intros filename st text Hw. rewrite readLine_value.
    destruct (parsedPoint_skip text (Prog2.lineIndex st)) as (-> & ->);
      [|reflexivity].
    apply onlyWhiteSpace_Fields, TrimSpace_empty in Hw. now rewrite Hw. }
  split; [exact onlyWhiteSpace_ascii|].
  split.
  { intros filename st text c rest Ht Hc. rewrite readLine_value.
    destruct (parsedPoint_skip text (Prog2.lineIndex st)) as (-> & ->);
      [|reflexivity].
    rewrite Ht. cbn. destruct Hc as [->| ->]; reflexivity. }
  split.
  { intros c rest rest'. now rewrite !skipped_value. }
  split.
  { intros filename st text c rest Ht H1 H2. unfold Prog2.readLine.
    rewrite skipped_value, Ht. cbn [blankOrComment].
    apply Ascii.eqb_neq in H1, H2. rewrite H1, H2. cbn [orb orPanic bind ret].
    destruct (Prog2.parseLine _ _) as [[p|e]|]; reflexivity. }
  split.
  { intros st line Hw. rewrite readLine1_value. cbv zeta.
    unfold takenPoint, reported, takenPoint.
    rewrite (onlyWhiteSpace_no_mark line Hw).
    apply onlyWhiteSpace_Fields in Hw. now rewrite Hw. }
  split.
  { intros st c rest Hc. rewrite readLine1_value. cbv zeta.
    destruct (takenPoint_comment (String c rest) (Prog1.lineNumber st))
      as (-> & ->); [|reflexivity].
    rewrite !HasPrefix_byte.
    destruct Hc as [->|[->| ->]]; reflexivity. }
  intros st line f0 fs Hp Hf H0. rewrite readLine1_value. cbv zeta.
  destruct (takenPoint_bad line (Prog1.lineNumber st) f0 fs Hp Hf H0)
    as (-> & ->).
  reflexivity.
Qed.

Lemma classification_after_trimming_witness :
  @Prog2.readLine decimalOnly "data.txt"
     {| Prog2.points := []; Prog2.lineIndex := 0 |} "  	 "
  = ([], Done {| Prog2.points := []; Prog2.lineIndex := 0 |})
  /\ @Prog2.readLine decimalOnly "data.txt"
       {| Prog2.points := []; Prog2.lineIndex := 0 |} "   % 1 2"
     = ([], Done {| Prog2.points := []; Prog2.lineIndex := 0 |}).
Proof.
  split.
  - apply (proj1 (@classification_after_trimming decimalOnly)). reflexivity.
  - apply (proj1 (proj2 (proj2 (@classification_after_trimming decimalOnly)))
             "data.txt" _ "   % 1 2" "%"%char " 1 2"); [reflexivity|].
    now right.
Defined.

(** C6, as stated, fails on the first program: the first character of
    " # note" after trimming is '#', and [readDataFromFile] does not pass
    it over as a comment but reports it as a parsing error. *)
Lemma first_program_reports_indented_comment :
  isComment " # note" = true
  /\ @Prog1.readLine decimalOnly start1 " # note"
     = ([Printf "Parsing error on line %d: %s\n" [ArgI 1; ArgS " # note"]],
        Done (passed start1)).
Proof. split; reflexivity. Qed.







(** C8, as amended.  In the second program the display is attempted
    exactly when TERM (taken in ASCII) contains "xterm", "vt340" or
    "mlterm" with letter case ignored; in the first program exactly when it
    contains one of them as written.  In both, when TERM is unset or not
    recognized by that test, nothing is sent to the terminal-graphics
    encoder, the display step is no error, and a run whose data and plot
    are good saves the image file and succeeds. *)
Theorem display_follows_terminal {lib : GoLib} :
  (forall term,
      isASCII term = true ->
      Prog2.isSixelSupported term = true <-> recognized containsFold term)
  /\ (forall term,
         Prog1.isSixelSupported term = true <-> recognized containsExact term)
  /\ (Prog2.isSixelSupported "" = false /\ Prog1.isSixelSupported "" = false)
  /\ (forall w filename cfg,
         Prog2.isSixelSupported (TERM w) = false ->
         Prog2.displaySixel w filename cfg = ([], Done None))
  /\ (forall w filename cfg,
         Prog2.isSixelSupported (TERM w) = true ->
         openImage w filename = None -> Decode w filename = None ->
         Encode w (fst (Prog2.encoderSize cfg)) (snd (Prog2.encoderSize cfg))
           filename = None ->
         Prog2.displaySixel w filename cfg
         = ([SixelOut (fst (Prog2.encoderSize cfg)) (snd (Prog2.encoderSize cfg))
               filename], Done None))
  /\ (forall w cfg,
         Prog2.isSixelSupported (TERM w) = false ->
         existsb isSixelOut (trace (Prog2.run w cfg)) = false)
  /\ (forall w cfg t pts,
         Prog2.isSixelSupported (TERM w) = false ->
         Prog2.readData w (Prog2.Input cfg) = (t, Done (Ok pts)) ->
         pts <> [] ->
         NewLine w pts = None -> NewScatter w pts = None ->
         Save w (float64_of_int (Prog2.Width cfg))
           (float64_of_int (Prog2.Height cfg))
           (Prog2.outFileName (Prog2.Input cfg)) pts = None ->
         Prog2.run w cfg
         = (t ++ [SavedPlot (Prog2.outFileName (Prog2.Input cfg))
                    (float64_of_int (Prog2.Width cfg))
                    (float64_of_int (Prog2.Height cfg)) pts;
                  LogPrintf "Plot saved to: %s"
                    [ArgS (Prog2.outFileName (Prog2.Input cfg))]],
            Done None))
  /\ (forall w filename config,
         Prog1.isSixelSupported (TERM w) = false ->
         existsb isSixelOut (trace (Prog1.plotDataToSixel w filename config))
         = false)
  /\ (forall w filename config t pts,
         Prog1.isSixelSupported (TERM w) = false ->
         Prog1.readDataFromFile w filename = (t, Done (Ok pts)) ->
         pts <> [] ->
         NewLine w pts = None -> NewScatter w pts = None ->
         Save w (float64_of_int (Prog1.width config))
           (float64_of_int (Prog1.height config))
           (Prog1.outFileName filename) pts = None ->
         Prog1.plotDataToSixel w filename config
         = (t ++ [SavedPlot (Prog1.outFileName filename)
                    (float64_of_int (Prog1.width config))
                    (float64_of_int (Prog1.height config)) pts;
                  Println [ArgS "Plot saved to file:";
                           ArgS (Prog1.outFileName filename)];
                  Println
                    [ArgS "Terminal does not support Sixel. Plot saved to file:";
                     ArgS (Prog1.outFileName filename)]],
            Done None)).
Proof.
  split.
  { intros term Ha. unfold Prog2.isSixelSupported, recognized.
    rewrite (ToLower_ASCII term Ha), !orb_true_iff.
    rewrite !Contains_lowerASCII by reflexivity. tauto. }
  split.
  { intros term. unfold Prog1.isSixelSupported, recognized.
    rewrite !orb_true_iff, !Contains_iff. tauto. }
  split; [split; reflexivity|].
  split.
  { intros w filename cfg Hn. unfold Prog2.displaySixel. now rewrite Hn. }
  split.
  { intros w filename cfg Hs Ho Hd He. unfold Prog2.displaySixel.
    rewrite Hs, Ho, Hd. cbn [negb].
    destruct (Prog2.encoderSize cfg) as [ew eh]. cbn [fst snd] in *.
    now rewrite He. }
  split.
  { intros w cfg Hn.
    destruct (readData_returns w (Prog2.Input cfg)) as (t & r & E & Hq & _).
    rewrite (run_after_readData _ _ _ _ E). unfold trace.
    destruct r as [pts|e]; [|cbn; now rewrite app_nil_r].
    cbn [bind]. destruct (List.length pts =? 0)%nat;
      [cbn; now rewrite app_nil_r|].
    unfold Prog2.createPlot, Prog2.createPlotters, Prog2.displaySixel.
    rewrite Hn. crunch; rewrite existsb_app, Hq; reflexivity. }
  split.
  { intros w cfg t pts Hn E Hpts HL HS HV.
    rewrite (run_after_readData _ _ _ _ E). cbn [bind].
    destruct pts as [|p pts]; [now elim Hpts|]. cbn [List.length Nat.eqb].
    unfold Prog2.createPlot, Prog2.createPlotters, Prog2.displaySixel.
    rewrite Hn, HL, HS, HV. reflexivity. }
  split.
  { intros w filename config Hn.
    destruct (readDataFromFile_returns w filename) as (t & r & E & Hq & _).
    unfold Prog1.plotDataToSixel, trace. rewrite E.
    destruct r as [pts|e]; [|cbn; now rewrite app_nil_r].
    cbn [bind]. destruct (List.length pts =? 0)%nat;
      [cbn; now rewrite app_nil_r|].
    unfold Prog1.createPlot. rewrite Hn.
    crunch; rewrite existsb_app, Hq; reflexivity. }
  intros w filename config t pts Hn E Hpts HL HS HV.
  unfold Prog1.plotDataToSixel. rewrite E. cbn [bind].
  destruct pts as [|p pts]; [now elim Hpts|]. cbn [List.length Nat.eqb].
  unfold Prog1.createPlot. rewrite Hn, HL, HS, HV. reflexivity.
Qed.

Lemma display_follows_terminal_witness :
  @Prog2.isSixelSupported decimalOnly "XTerm-256color" = true
  /\ @Prog2.run decimalOnly (quietWorld "dumb" ["1 2"])
       {| Prog2.Width := 100; Prog2.Height := 50; Prog2.Scale := 2;
          Prog2.Input := "data.txt"; Prog2.LineWidth := 1 |}
     = ([SavedPlot "data_plot.png" 100 50 [{| X := 1; Y := 2 |}];
         LogPrintf "Plot saved to: %s" [ArgS "data_plot.png"]],
        Done None).
Proof.
  split.
  - apply (proj1 (@display_follows_terminal decimalOnly) "XTerm-256color");
      [reflexivity|].
    left. exists "", "XTerm", "-256color". split; reflexivity.
  - exact (proj1 (proj2 (proj2 (proj2 (proj2 (proj2 (proj2
             (@display_follows_terminal decimalOnly)))))))
             (quietWorld "dumb" ["1 2"])
             {| Prog2.Width := 100; Prog2.Height := 50; Prog2.Scale := 2;
                Prog2.Input := "data.txt"; Prog2.LineWidth := 1 |}
             [] [{| X := 1; Y := 2 |}]
             eq_refl eq_refl (fun E => nil_cons (eq_sym E))
             eq_refl eq_refl eq_refl).
Defined.

(** C8, as stated, fails on the first program: "XTERM" contains "xterm"
    with letter case ignored, and the first program does not display. *)
Lemma first_program_matches_case :
  recognized containsFold "XTERM"
  /\ Prog1.isSixelSupported "XTERM" = false
  /\ existsb isSixelOut
       (trace (@Prog1.plotDataToSixel decimalOnly (quietWorld "XTERM" ["1 2"])
                 "data.txt"
                 {| Prog1.width := 100; Prog1.height := 50; Prog1.scale := 1 |}))
     = false.
Proof.
  split; [|split; reflexivity].
  left. exists "", "XTERM", "". split; reflexivity.
Qed.

(** C9, as amended.  When [scale] differs from 1.0 the second program
    gives the encoder [int(width*scale)] by [int(height*scale)], the
    fraction discarded; the first program does so when both are positive
    and otherwise leaves the encoder as [NewEncoder] made it.  With width
    100, height 50 and scale 2.0 both give 200 by 100.  The saved image is
    asked for with [width] and [height] alone in both programs. *)
Theorem encoder_size_follows_scale {lib : GoLib} :
  (forall cfg,
      PrimFloat.eqb (Prog2.Scale cfg) 1 = false ->
      Prog2.encoderSize cfg
      = (int_of_float64 (float64_of_int (Prog2.Width cfg) * Prog2.Scale cfg),
         int_of_float64 (float64_of_int (Prog2.Height cfg) * Prog2.Scale cfg)))
  /\ (forall w filename cfg,
         Prog2.isSixelSupported (TERM w) = true ->
         openImage w filename = None -> Decode w filename = None ->
         Prog2.displaySixel w filename cfg
         = match Encode w (fst (Prog2.encoderSize cfg))
                   (snd (Prog2.encoderSize cfg)) filename with
           | Some err =>
               ([], Done (Some (Errorf "encode SIXEL: %w" [ArgE err])))
           | None =>
               ([SixelOut (fst (Prog2.encoderSize cfg))
                   (snd (Prog2.encoderSize cfg)) filename], Done None)
           end)
  /\ (forall input lw,
         Prog2.encoderSize
           {| Prog2.Width := 100; Prog2.Height := 50; Prog2.Scale := 2.0;
              Prog2.Input := input; Prog2.LineWidth := lw |}
         = (200%Z, 100%Z))
  /\ (int_of_float64 2.75 = 2%Z /\ int_of_float64 (-2.75) = (-2)%Z
      /\ int_of_float64 (float64_of_int 3 * 0.5) = 1%Z)
  /\ (forall w pts outFile cfg cfg',
         Prog2.Width cfg = Prog2.Width cfg' ->
         Prog2.Height cfg = Prog2.Height cfg' ->
         Prog2.createPlot w pts outFile cfg = Prog2.createPlot w pts outFile cfg')
  /\ (forall w pts outFile cfg t,
         Prog2.createPlot w pts outFile cfg = (t, Done None) ->
         t = [SavedPlot outFile (float64_of_int (Prog2.Width cfg))
                (float64_of_int (Prog2.Height cfg)) pts])
  /\ (forall config,
         PrimFloat.eqb (Prog1.scale config) 1 = false ->
         let newWidth :=
           int_of_float64 (float64_of_int (Prog1.width config) * Prog1.scale config) in
         let newHeight :=
           int_of_float64 (float64_of_int (Prog1.height config) * Prog1.scale config) in
         Prog1.encoderSize config
         = if ((0 <? newWidth) && (0 <? newHeight))%Z
           then (newWidth, newHeight) else (0%Z, 0%Z))
  /\ Prog1.encoderSize
       {| Prog1.width := 100; Prog1.height := 50; Prog1.scale := 2.0 |}
     = (200%Z, 100%Z)
  /\ (forall w filename config config',
         Prog1.width config = Prog1.width config' ->
         Prog1.height config = Prog1.height config' ->
         filter isSavedPlot (trace (Prog1.plotDataToSixel w filename config))
         = filter isSavedPlot (trace (Prog1.plotDataToSixel w filename config'))).
Proof.
  split.
  { intros cfg Hs. unfold Prog2.encoderSize. now rewrite Hs. }
  split.
  { intros w filename cfg Hs Ho Hd. unfold Prog2.displaySixel.
    rewrite Hs, Ho, Hd. cbn [negb].
    destruct (Prog2.encoderSize cfg) as [ew eh]. cbn [fst snd].
    destruct (Encode w ew eh filename); reflexivity. }
  split; [reflexivity|].
  split; [repeat split; reflexivity|].
  split.
  { intros w pts outFile cfg cfg' Hw Hh. unfold Prog2.createPlot,
      Prog2.createPlotters. now rewrite Hw, Hh. }
  split.
  { intros w pts outFile cfg t. unfold Prog2.createPlot, Prog2.createPlotters.
    crunch; intros H; inversion H; reflexivity. }
  split.
  { intros config Hs. unfold Prog1.encoderSize. now rewrite Hs. }
  split; [reflexivity|].
  intros w filename config config' Hw Hh.
  destruct (readDataFromFile_returns w filename) as (t & r & E & _ & Hq).
  unfold Prog1.plotDataToSixel, trace. rewrite E, Hw, Hh.
  destruct r as [pts|e]; [|reflexivity].
  cbn [bind]. destruct (List.length pts =? 0)%nat; [reflexivity|].
  unfold Prog1.createPlot.
  crunch; rewrite ?filter_app; cbn [filter isSavedPlot app]; reflexivity.
Qed.

Lemma encoder_size_follows_scale_witness :
  Prog2.encoderSize
    {| Prog2.Width := 640; Prog2.Height := 480; Prog2.Scale := 0.5;
       Prog2.Input := "data.txt"; Prog2.LineWidth := 1 |}
  = (320%Z, 240%Z).
Proof.
  exact (proj1 (@encoder_size_follows_scale decimalOnly)
           {| Prog2.Width := 640; Prog2.Height := 480; Prog2.Scale := 0.5;
              Prog2.Input := "data.txt"; Prog2.LineWidth := 1 |} eq_refl).
Defined.

(** C9, as stated, fails on the first program: with width 100, height 50
    and scale 1/64 the claim has the encoder given 1 by 0, and the first
    program leaves it at 0 by 0. *)
Lemma first_program_guards_encoder_size :
  PrimFloat.eqb 0.015625 1 = false
  /\ (int_of_float64 (float64_of_int 100 * 0.015625),
      int_of_float64 (float64_of_int 50 * 0.015625)) = (1%Z, 0%Z)
  /\ Prog1.encoderSize
       {| Prog1.width := 100; Prog1.height := 50; Prog1.scale := 0.015625 |}
     = (0%Z, 0%Z).
Proof. repeat split; reflexivity. Qed.

(** C10.  In [readData] the test [line == ""] comes first and decides alone
    on the empty line, so [line[0]] is read on non-empty lines only, where
    it is in bounds; read on the empty line, which is what trimming leaves
    of a line without fields, it would panic.  The condition therefore
    always has a value, and the loop and [readData] return for every
    sequence of lines, without a panic. *)
Theorem readData_index_in_bounds {lib : GoLib} :
  (forall line, byteAt line 0 = None <-> line = "")
  /\ Prog2.skipped "" = Some true
  /\ (forall c rest,
         byteAt (String c rest) 0 = Some c
         /\ Prog2.skipped (String c rest)
            = Some (Ascii.eqb c "#" || Ascii.eqb c "%"))
  /\ (forall text, exists b, Prog2.skipped (TrimSpace text) = Some b)
  /\ (forall text,
         Fields text = [] ->
         byteAt (TrimSpace text) 0 = None
         /\ Prog2.skipped (TrimSpace text) = Some true)
  /\ (forall filename st texts,
         exists t st', Prog2.readLines filename st texts = (t, Done st'))
  /\ (forall w filename,
         exists t r, Prog2.readData w filename = (t, Done r)).
Proof.
  split.
  { intros [|c r]; cbn; split; try reflexivity; discriminate. }
  split; [reflexivity|].
  split.
  { intros c rest. split; [reflexivity|]. apply skipped_value. }
  split.
  { intros text. rewrite skipped_value. eauto. }
  split.
  { intros text Hf. apply TrimSpace_empty in Hf. rewrite Hf.
    split; reflexivity. }
  split.
  { intros filename st texts. revert st.
    induction texts as [|text rest IH]; intros st;
      [exists [], st; reflexivity|].
    cbn [Prog2.readLines]. rewrite readLine_value.
    destruct (parsedPoint text _) as [p|]; [|destruct (parseFailure text _)];
      cbn [bind];
      match goal with
      | |- context [Prog2.readLines filename ?s rest] =>
          destruct (IH s) as (t & st' & ->)
      end; eauto. }
  intros w filename. rewrite readData_value.
  destruct (readFile w filename); eauto.
Qed.

(* ================================================================== *)
(** ** Further properties *)
(* ================================================================== *)

(* ================================================================== *)
(** ** The name of the saved file *)
(* ================================================================== *)

Section OutFile.

Lemma string_of_list_ascii_app (a b : list ascii) :
  string_of_list_ascii (a ++ b)
  = (string_of_list_ascii a ++ string_of_list_ascii b)%string.
Proof. induction a as [|c a IH]; cbn; [reflexivity | now rewrite IH]. Qed.

(** What [extFrom] returns is the end of what it was given, and is empty or
    begins with a dot. *)
Lemma extFrom_suffix (back acc : list ascii) :
  exists stem, rev back ++ acc = stem ++ extFrom back acc.
Proof.
  revert acc. induction back as [|c back IH]; intros acc; cbn [extFrom].
  - exists acc. now rewrite app_nil_r.
  - destruct (Ascii.eqb c "/").
    + exists (rev (c :: back) ++ acc). now rewrite app_nil_r.
    + destruct (Ascii.eqb c ".").
      * exists (rev back). cbn [rev]. now rewrite <- app_assoc.
      * destruct (IH (c :: acc)) as (stem & E). exists stem.
        cbn [rev]. now rewrite <- app_assoc.
Qed.

Lemma extFrom_dot (back acc : list ascii) :
  extFrom back acc = []
  \/ exists rest, extFrom back acc = "."%char :: rest.
Proof.
  revert acc. induction back as [|c back IH]; intros acc; cbn [extFrom];
    [now left|].
  destruct (Ascii.eqb c "/"); [now left|].
  destruct (Ascii.eqb c ".") eqn:E; [|apply IH].
  apply Ascii.eqb_eq in E. subst c. right. now exists acc.
Qed.

Lemma Ext_suffix (path : string) :
  exists stem, path = (stem ++ Ext path)%string.
Proof.
  unfold Ext.
  destruct (extFrom_suffix (rev (list_ascii_of_string path)) []) as (stem & E).
  rewrite rev_involutive, app_nil_r in E.
  exists (string_of_list_ascii stem).
  rewrite <- string_of_list_ascii_app, <- E.
  now rewrite string_of_list_ascii_of_string.
Qed.

Lemma Ext_dot (path : string) :
  Ext path = "" \/ exists rest, Ext path = String "." rest.
Proof.
  unfold Ext.
  destruct (extFrom_dot (rev (list_ascii_of_string path)) []) as [->|(r & ->)].
  - now left.
  - right. now exists (string_of_list_ascii r).
Qed.

Lemma substring_prefix (s t : string) : substring 0 (len s) (s ++ t) = s.
Proof.
  unfold len. induction s as [|c s IH]; cbn.
  - now destruct t.
  - now rewrite IH.
Qed.

Lemma substring_whole (t : string) : substring 0 (len t) t = t.
Proof.
  unfold len. induction t as [|c t IH]; cbn; [reflexivity | now rewrite IH].
Qed.

Lemma substring_suffix (s t : string) :
  substring (len s) (len t) (s ++ t) = t.
Proof.
  induction s as [|c s IH].
  - apply substring_whole.
  - exact IH.
Qed.

Lemma TrimSuffix_append (stem suffix : string) :
  TrimSuffix (stem ++ suffix) suffix = stem.
Proof.
  unfold TrimSuffix, HasSuffix. rewrite len_append.
  replace (len stem + len suffix - len suffix)%nat with (len stem) by lia.
  rewrite substring_suffix, substring_prefix.
  unfold streq. rewrite String.eqb_refl.
  replace (len suffix <=? len stem + len suffix)%nat with true; [reflexivity|].
  symmetry. apply Nat.leb_le. lia.
Qed.

Lemma extFrom_plain (base rest acc : list ascii) :
  (forall c, In c base -> c <> "."%char /\ c <> "/"%char) ->
  extFrom (base ++ "/"%char :: rest) acc = [].
Proof.
  revert acc. induction base as [|c base IH]; intros acc Hb; [reflexivity|].
  cbn [app extFrom]. destruct (Hb c (or_introl eq_refl)) as (Hd & Hs).
  apply Ascii.eqb_neq in Hd, Hs. rewrite Hd, Hs.
  apply IH. intros d Hin. apply Hb. now right.
Qed.

Lemma list_ascii_of_string_app (s t : string) :
  list_ascii_of_string (s ++ t)
  = list_ascii_of_string s ++ list_ascii_of_string t.
Proof. induction s as [|c s IH]; cbn; [reflexivity | now rewrite IH]. Qed.

End OutFile.

(** X1.  The saved file is named after the data file: what precedes the
    extension of the input path, followed by "_plot.png", where the
    extension is empty or begins at a dot.  It is therefore never the data
    file itself.  A dot in a directory name is no extension: a base name
    without a dot is kept whole. *)
Theorem saved_file_is_not_the_data_file :
  (forall input,
      exists stem,
        input = (stem ++ Ext input)%string
        /\ (Ext input = "" \/ exists rest, Ext input = String "." rest)
        /\ Prog2.outFileName input = (stem ++ "_plot.png")%string
        /\ Prog1.outFileName input = (stem ++ "_plot.png")%string
        /\ Prog2.outFileName input <> input)
  /\ (forall dir base,
         (forall c, In c (list_ascii_of_string base) ->
                    c <> "."%char /\ c <> "/"%char) ->
         Prog2.outFileName (dir ++ "/" ++ base)
         = (dir ++ "/" ++ base ++ "_plot.png")%string).
Proof.
  split.
  - intros input. destruct (Ext_suffix input) as (stem & E).
    exists stem. split; [exact E|]. split; [apply Ext_dot|].
    assert (Eo : Prog2.outFileName input = (stem ++ "_plot.png")%string).
    { unfold Prog2.outFileName. rewrite E at 1. now rewrite TrimSuffix_append. }
    split; [exact Eo|]. split; [exact Eo|].
    rewrite Eo. rewrite E at 1. intros N. apply append_inv_head in N.
    destruct (Ext_dot input) as [H|(rest & H)]; rewrite H in N; discriminate N.
  - intros dir base Hb.
    assert (Ee : Ext (dir ++ "/" ++ base) = "").
    { unfold Ext. rewrite !list_ascii_of_string_app, !rev_app_distr.
      cbn [list_ascii_of_string rev app]. rewrite <- app_assoc. cbn [app].
      rewrite extFrom_plain; [reflexivity|].
      intros c Hc. apply Hb. now apply in_rev. }
    unfold Prog2.outFileName. rewrite Ee.
    pose proof (TrimSuffix_append (dir ++ "/" ++ base) "") as Ht.
    rewrite append_nil_r in Ht. rewrite Ht.
    now rewrite !append_assoc.
Qed.

Lemma saved_file_is_not_the_data_file_witness :
  Prog2.outFileName "runs.2024/series" = "runs.2024/series_plot.png".
Proof.
  apply (proj2 saved_file_is_not_the_data_file "runs.2024" "series").
  intros c Hc. cbn in Hc.
  repeat (destruct Hc as [<-|Hc]; [split; discriminate|]). elim Hc.
Defined.

(* ================================================================== *)
(** ** The stages of a run *)
(* ================================================================== *)

Section Stages.
Context {lib : GoLib}.

Lemma quiet_no_sixel (t : list event) (ew eh : Z) (f : string) :
  existsb isSixelOut t = false -> ~ In (SixelOut ew eh f) t.
Proof.
  intros Hq Hin. assert (E : existsb isSixelOut t = true).
  { apply existsb_exists. exists (SixelOut ew eh f). now split. }
  congruence.
Qed.

Lemma quiet_no_saved (t : list event) (f : string) (wd ht : float)
      (pts : list Point) :
  existsb isSavedPlot t = false -> ~ In (SavedPlot f wd ht pts) t.
Proof.
  intros Hq Hin. assert (E : existsb isSavedPlot t = true).
  { apply existsb_exists. exists (SavedPlot f wd ht pts). now split. }
  congruence.
Qed.

(** [plotDataToSixel] after [readDataFromFile] has returned. *)
Lemma plot_after_readDataFromFile (w : World) (filename : string)
      (config : Prog1.Config) (t : list event) (r : result (list Point)) :
  Prog1.readDataFromFile w filename = (t, Done r) ->
  Prog1.plotDataToSixel w filename config =
  bind (t, Done r) (fun r =>
    match r with
    | Err err => ret (Some err)
    | Ok data =>
        if (List.length data =? 0)%nat
        then ret (Some EmptyDatasetError1)
        else
          match Prog1.createPlot w data with
          | Some err => ret (Some err)
          | None =>
              let outFile := Prog1.outFileName filename in
              let width := float64_of_int (Prog1.width config) in
              let height := float64_of_int (Prog1.height config) in
              match Save w width height outFile data with
              | Some err => ret (Some (Errorf "failed to save plot: %v" [ArgE err]))
              | None =>
                  emit (SavedPlot outFile width height data) ;;;
                  emit (Println [ArgS "Plot saved to file:"; ArgS outFile]) ;;;
                  if Prog1.isSixelSupported (TERM w) then
                    match openImage w outFile with
                    | Some err =>
                        ret (Some (Errorf "failed to open saved image: %v" [ArgE err]))
                    | None =>
                        match Decode w outFile with
                        | Some err =>
                            ret (Some (Errorf "failed to decode saved image: %v" [ArgE err]))
                        | None =>
                            let '(ew, eh) := Prog1.encoderSize config in
                            match Encode w ew eh outFile with
                            | Some err =>
                                ret (Some (Errorf "failed to encode sixel: %v" [ArgE err]))
                            | None => emit (SixelOut ew eh outFile) ;;; ret None
                            end
                        end
                    end
                  else
                    emit (Println
                            [ArgS "Terminal does not support Sixel. Plot saved to file:";
                             ArgS outFile]) ;;;
                    ret None
              end
          end
    end).
Proof. intros E. unfold Prog1.plotDataToSixel. now rewrite E. Qed.

End Stages.

(** Opens the stages of a run of the second program, of the first. *)
Ltac open_run2 w cfg t r E Hq Hs :=
  destruct (readData_returns w (Prog2.Input cfg)) as (t & r & E & Hq & Hs);
  rewrite (run_after_readData _ _ _ _ E);
  unfold Prog2.createPlot, Prog2.createPlotters, Prog2.displaySixel.

Ltac open_run1 w filename config t r E Hq Hs :=
  destruct (readDataFromFile_returns w filename) as (t & r & E & Hq & Hs);
  rewrite (plot_after_readDataFromFile _ _ config _ _ E);
  unfold Prog1.createPlot.

(** X2.  A run returns no error exactly when every stage went well:
    ingestion returned at least one point, the line and scatter plotters
    were made of these points, the plot was saved, and the terminal is not
    recognized or the saved image was opened, decoded and encoded. *)
Theorem run_succeeds_iff {lib : GoLib} :
  (forall w cfg,
      snd (Prog2.run w cfg) = Done None <->
      exists pts,
        pointOutput (Prog2.readData w (Prog2.Input cfg)) = Some pts
        /\ pts <> []
        /\ NewLine w pts = None /\ NewScatter w pts = None
        /\ Save w (float64_of_int (Prog2.Width cfg))
             (float64_of_int (Prog2.Height cfg))
             (Prog2.outFileName (Prog2.Input cfg)) pts = None
        /\ (Prog2.isSixelSupported (TERM w) = false
            \/ (openImage w (Prog2.outFileName (Prog2.Input cfg)) = None
                /\ Decode w (Prog2.outFileName (Prog2.Input cfg)) = None
                /\ Encode w (fst (Prog2.encoderSize cfg))
                     (snd (Prog2.encoderSize cfg))
                     (Prog2.outFileName (Prog2.Input cfg)) = None)))
  /\ (forall w filename config,
         snd (Prog1.plotDataToSixel w filename config) = Done None <->
         exists pts,
           pointOutput (Prog1.readDataFromFile w filename) = Some pts
           /\ pts <> []
           /\ NewLine w pts = None /\ NewScatter w pts = None
           /\ Save w (float64_of_int (Prog1.width config))
                (float64_of_int (Prog1.height config))
                (Prog1.outFileName filename) pts = None
           /\ (Prog1.isSixelSupported (TERM w) = false
               \/ (openImage w (Prog1.outFileName filename) = None
                   /\ Decode w (Prog1.outFileName filename) = None
                   /\ Encode w (fst (Prog1.encoderSize config))
                        (snd (Prog1.encoderSize config))
                        (Prog1.outFileName filename) = None))).
Proof.
  split.
  - intros w cfg. open_run2 w cfg t r E Hq Hs.
    unfold pointOutput. rewrite E. cbn [snd bind].
    destruct r as [pts|e].
    + destruct pts as [|p pts].
      * cbn. split; [discriminate|].
        intros (pts & Hp & Hn & _). injection Hp as <-. now elim Hn.
      * cbn [List.length Nat.eqb]. crunch;
          (split;
           [ intros H; try discriminate H;
             exists (p :: pts); repeat split; try assumption; try discriminate;
             first [ now left | right; cbn [fst snd]; now repeat split ]
           | intros (pts' & Hp & _ & HL & HS & HV & HD); injection Hp as <-;
             try congruence;
             destruct HD as [HD|(HO & HC & HE)];
             cbn [fst snd] in *; try congruence; reflexivity ]).
    + cbn. split; [discriminate|]. intros (pts & Hp & _). discriminate Hp.
  - intros w filename config. open_run1 w filename config t r E Hq Hs.
    unfold pointOutput. rewrite E. cbn [snd bind].
    destruct r as [pts|e].
    + destruct pts as [|p pts].
      * cbn. split; [discriminate|].
        intros (pts & Hp & Hn & _). injection Hp as <-. now elim Hn.
      * cbn [List.length Nat.eqb]. crunch;
          (split;
           [ intros H; try discriminate H;
             exists (p :: pts); repeat split; try assumption; try discriminate;
             first [ now left | right; cbn [fst snd]; now repeat split ]
           | intros (pts' & Hp & _ & HL & HS & HV & HD); injection Hp as <-;
             try congruence;
             destruct HD as [HD|(HO & HC & HE)];
             cbn [fst snd] in *; try congruence; reflexivity ]).
    + cbn. split; [discriminate|]. intros (pts & Hp & _). discriminate Hp.
Qed.

Lemma run_succeeds_iff_witness :
  snd (@Prog2.run decimalOnly (quietWorld "xterm" ["1 2"])
         {| Prog2.Width := 100; Prog2.Height := 50; Prog2.Scale := 1;
            Prog2.Input := "data.txt"; Prog2.LineWidth := 1 |})
  = Done None.
Proof.
  apply (proj2 (proj1 (@run_succeeds_iff decimalOnly)
                  (quietWorld "xterm" ["1 2"])
                  {| Prog2.Width := 100; Prog2.Height := 50; Prog2.Scale := 1;
                     Prog2.Input := "data.txt"; Prog2.LineWidth := 1 |})).
  exists [{| X := 1; Y := 2 |}].
  split; [reflexivity|]. split; [discriminate|].
  split; [reflexivity|]. split; [reflexivity|]. split; [reflexivity|].
  right. split; [reflexivity|]. split; reflexivity.
Defined.

(** Finds an event in the trace of a run: not among the diagnostics of
    ingestion, so among the few events after them. *)
Ltac find_event H Hq Hs :=
  apply in_app_or in H; destruct H as [H|H];
  [ exfalso;
    first [ eapply quiet_no_sixel; eassumption
          | eapply quiet_no_saved; eassumption ]
  | cbn in H;
    repeat (destruct H as [H|H]; [try discriminate H|]); try (now elim H) ].

(** X3.  Terminal graphics are the last thing a run does and come only
    after the plot was saved: when the trace holds a SIXEL output, the run
    returned no error, the image encoded is the file just saved, the
    encoder had the size computed from the configuration, and nothing was
    saved or encoded before. *)
Theorem display_comes_after_save {lib : GoLib} :
  (forall w cfg ew eh f,
      In (SixelOut ew eh f) (trace (Prog2.run w cfg)) ->
      snd (Prog2.run w cfg) = Done None
      /\ f = Prog2.outFileName (Prog2.Input cfg)
      /\ (ew, eh) = Prog2.encoderSize cfg
      /\ exists pre pts,
           trace (Prog2.run w cfg)
           = pre ++ [SavedPlot f (float64_of_int (Prog2.Width cfg))
                       (float64_of_int (Prog2.Height cfg)) pts;
                     LogPrintf "Plot saved to: %s" [ArgS f];
                     SixelOut ew eh f]
           /\ existsb isSixelOut pre = false
           /\ existsb isSavedPlot pre = false)
  /\ (forall w filename config ew eh f,
         In (SixelOut ew eh f) (trace (Prog1.plotDataToSixel w filename config)) ->
         snd (Prog1.plotDataToSixel w filename config) = Done None
         /\ f = Prog1.outFileName filename
         /\ (ew, eh) = Prog1.encoderSize config
         /\ exists pre pts,
              trace (Prog1.plotDataToSixel w filename config)
              = pre ++ [SavedPlot f (float64_of_int (Prog1.width config))
                          (float64_of_int (Prog1.height config)) pts;
                        Println [ArgS "Plot saved to file:"; ArgS f];
                        SixelOut ew eh f]
              /\ existsb isSixelOut pre = false
              /\ existsb isSavedPlot pre = false).
Proof.
  split.
  - intros w cfg ew eh f. open_run2 w cfg t r E Hq Hs. unfold trace.
    destruct r as [pts|e]; [destruct pts as [|p pts]|];
      cbn [bind List.length Nat.eqb]; crunch; intros H; find_event H Hq Hs.
    injection H as <- <- <-. repeat split. now exists t, (p :: pts).
  - intros w filename config ew eh f.
    open_run1 w filename config t r E Hq Hs. unfold trace.
    destruct r as [pts|e]; [destruct pts as [|p pts]|];
      cbn [bind List.length Nat.eqb]; crunch; intros H; find_event H Hq Hs.
    injection H as <- <- <-. repeat split. now exists t, (p :: pts).
Qed.

Lemma display_comes_after_save_witness :
  snd (@Prog2.run decimalOnly (quietWorld "xterm" ["1 2"; "3 4"])
         {| Prog2.Width := 100; Prog2.Height := 50; Prog2.Scale := 2;
            Prog2.Input := "data.txt"; Prog2.LineWidth := 1 |})
  = Done None.
Proof.
  apply (proj1 (@display_comes_after_save decimalOnly)
           (quietWorld "xterm" ["1 2"; "3 4"]) _ 200%Z 100%Z "data_plot.png").
  vm_compute. tauto.
Defined.

(** X4.  What a run saves is the plot of exactly the points ingestion
    returned: a saved plot in the trace has the derived file name, the
    configured width and height, and the non-empty point sequence returned
    by ingestion; a run saves at most once. *)
Theorem saved_plot_holds_the_points {lib : GoLib} :
  (forall w cfg f wd ht pts,
      In (SavedPlot f wd ht pts) (trace (Prog2.run w cfg)) ->
      pointOutput (Prog2.readData w (Prog2.Input cfg)) = Some pts
      /\ pts <> []
      /\ f = Prog2.outFileName (Prog2.Input cfg)
      /\ wd = float64_of_int (Prog2.Width cfg)
      /\ ht = float64_of_int (Prog2.Height cfg)
      /\ List.length (filter isSavedPlot (trace (Prog2.run w cfg))) = 1%nat)
  /\ (forall w filename config f wd ht pts,
         In (SavedPlot f wd ht pts) (trace (Prog1.plotDataToSixel w filename config)) ->
         pointOutput (Prog1.readDataFromFile w filename) = Some pts
         /\ pts <> []
         /\ f = Prog1.outFileName filename
         /\ wd = float64_of_int (Prog1.width config)
         /\ ht = float64_of_int (Prog1.height config)
         /\ List.length
              (filter isSavedPlot (trace (Prog1.plotDataToSixel w filename config)))
            = 1%nat).
Proof.
  assert (Hnone : forall t, existsb isSavedPlot t = false ->
                            filter isSavedPlot t = []).
  { induction t as [|ev t IH]; [reflexivity|]. cbn.
    destruct (isSavedPlot ev); [discriminate|]. exact IH. }
  split.
  - intros w cfg f wd ht pts0. open_run2 w cfg t r E Hq Hs.
    unfold trace, pointOutput. rewrite E. cbn [snd].
    destruct r as [pts|e]; [destruct pts as [|p pts]|];
      cbn [bind List.length Nat.eqb]; crunch; intros H; find_event H Hq Hs;
      injection H as <- <- <- <-;
      (repeat split; [discriminate|]);
      rewrite filter_app, (Hnone t Hs); reflexivity.
  - intros w filename config f wd ht pts0.
    open_run1 w filename config t r E Hq Hs.
    unfold trace, pointOutput. rewrite E. cbn [snd].
    destruct r as [pts|e]; [destruct pts as [|p pts]|];
      cbn [bind List.length Nat.eqb]; crunch; intros H; find_event H Hq Hs;
      injection H as <- <- <- <-;
      (repeat split; [discriminate|]);
      rewrite filter_app, (Hnone t Hs); reflexivity.
Qed.

Lemma saved_plot_holds_the_points_witness :
  pointOutput (@Prog2.readData decimalOnly (quietWorld "dumb" ["1 2"; "x"; "5"])
                 "data.txt")
  = Some [{| X := 1; Y := 2 |}; {| X := 1; Y := 5 |}].
Proof.
  apply (proj1 (@saved_plot_holds_the_points decimalOnly)
           (quietWorld "dumb" ["1 2"; "x"; "5"])
           {| Prog2.Width := 100; Prog2.Height := 50; Prog2.Scale := 1;
              Prog2.Input := "data.txt"; Prog2.LineWidth := 1 |}
           "data_plot.png" 100 50).
  vm_compute. tauto.
Defined.

(** X5.  A fault of the scanner discards the points already parsed: the run
    fails with the scan error, wrapped, after logging the diagnostics of
    the malformed lines, and saves nothing; so it is when the file cannot
    be opened.  The first program returns the error of
    [readDataFromFile] as it is. *)
Theorem read_fault_discards_points {lib : GoLib} :
  (forall w cfg texts e,
      readFile w (Prog2.Input cfg) = Scans texts (Some e) ->
      Prog2.run w cfg
      = (map (diagnostic (Prog2.Input cfg)) (failuresOfLines [] texts),
         Done (Some (Errorf "reading data from %q: %w"
                       [ArgS (Prog2.Input cfg);
                        ArgE (Errorf "scan file: %w" [ArgE e])])))
      /\ existsb isSavedPlot (trace (Prog2.run w cfg)) = false)
  /\ (forall w cfg e,
         readFile w (Prog2.Input cfg) = OpenFails e ->
         Prog2.run w cfg
         = ([], Done (Some (Errorf "reading data from %q: %w"
                              [ArgS (Prog2.Input cfg);
                               ArgE (Errorf "open file: %w" [ArgE e])]))))
  /\ (forall w filename config lines e,
         readFile w filename = Scans lines (Some e) ->
         Prog1.plotDataToSixel w filename config
         = (map diagnostic1 (reportedLines [] 0 lines),
            Done (Some (Errorf "error reading file: %v" [ArgE e])))
         /\ existsb isSavedPlot (trace (Prog1.plotDataToSixel w filename config))
            = false)
  /\ (forall w filename config e,
         readFile w filename = OpenFails e ->
         Prog1.plotDataToSixel w filename config
         = ([], Done (Some (Errorf "failed to open file: %v" [ArgE e])))).
Proof.
  split.
  { intros w cfg texts e Hfile.
    assert (E : Prog2.run w cfg
                = (map (diagnostic (Prog2.Input cfg)) (failuresOfLines [] texts),
                   Done (Some (Errorf "reading data from %q: %w"
                                 [ArgS (Prog2.Input cfg);
                                  ArgE (Errorf "scan file: %w" [ArgE e])])))).
    { unfold Prog2.run. rewrite readData_value, Hfile. cbn.
      now rewrite app_nil_r. }
    split; [exact E|]. rewrite E. apply diagnostics_quiet. }
  split.
  { intros w cfg e Hfile. unfold Prog2.run.
    now rewrite readData_value, Hfile. }
  split.
  { intros w filename config lines e Hfile.
    assert (E : Prog1.plotDataToSixel w filename config
                = (map diagnostic1 (reportedLines [] 0 lines),
                   Done (Some (Errorf "error reading file: %v" [ArgE e])))).
    { unfold Prog1.plotDataToSixel. rewrite readDataFromFile_value, Hfile. cbn.
      now rewrite app_nil_r. }
    split; [exact E|]. rewrite E. apply diagnostics1_quiet. }
  intros w filename config e Hfile. unfold Prog1.plotDataToSixel.
  now rewrite readDataFromFile_value, Hfile.
Qed.

Lemma read_fault_discards_points_witness :
  @Prog2.run decimalOnly (faultyWorld ["1 2"; "oops oops oops"] (LibError "read"))
    {| Prog2.Width := 100; Prog2.Height := 50; Prog2.Scale := 1;
       Prog2.Input := "data.txt"; Prog2.LineWidth := 1 |}
  = ([LogPrintf "Skipping line %.0f in %s: %v"
        [ArgF 2; ArgS "data.txt"; ArgE (UnsupportedFormat 3)]],
     Done (Some (Errorf "reading data from %q: %w"
                   [ArgS "data.txt";
                    ArgE (Errorf "scan file: %w" [ArgE (LibError "read")])]))).
Proof.
  exact (proj1 (proj1 (@read_fault_discards_points decimalOnly)
                  (faultyWorld ["1 2"; "oops oops oops"] (LibError "read"))
                  {| Prog2.Width := 100; Prog2.Height := 50; Prog2.Scale := 1;
                     Prog2.Input := "data.txt"; Prog2.LineWidth := 1 |}
                  ["1 2"; "oops oops oops"] (LibError "read") eq_refl)).
Defined.




(* ================================================================== *)
(** ** Where diagnostics and points come from *)
(* ================================================================== *)

Section Origins.
Context {lib : GoLib}.





(** Each failure [failuresOfLines] lists belongs to a line of the file and
    carries the number of points of the lines before it. *)
Lemma failuresOfLines_position (texts : list string) :
  forall acc k e,
    In (k, e) (failuresOfLines acc texts) ->
    exists before text after,
      texts = before ++ text :: after
      /\ k = List.length (pointsOfLines acc before)
      /\ parseFailure text (countF k) = Some e.
Proof.
  induction texts as [|t rest IH]; intros acc k e Hin; [destruct Hin|].
  cbn [failuresOfLines] in Hin.
  destruct (parsedPoint t (countF (List.length acc))) as [p|] eqn:Ep.
  - destruct (IH _ _ _ Hin) as (b & x & a & -> & -> & Hf).
    exists (t :: b), x, a. cbn [app pointsOfLines]. rewrite Ep. auto.
  - destruct (parseFailure t (countF (List.length acc))) as [e0|] eqn:Ef.
    + destruct Hin as [E|Hin].
      * injection E as <- <-. exists [], t, rest. auto.
      * destruct (IH _ _ _ Hin) as (b & x & a & -> & -> & Hf).
        exists (t :: b), x, a. cbn [app pointsOfLines]. rewrite Ep. auto.
    + destruct (IH _ _ _ Hin) as (b & x & a & -> & -> & Hf).
      exists (t :: b), x, a. cbn [app pointsOfLines]. rewrite Ep. auto.
Qed.

Lemma pointsOfLines_length (texts : list string) :
  (List.length (pointsOfLines [] texts) <= List.length texts)%nat.
Proof. pose proof (lines_accounted texts []) as H. cbn [List.length] in H. lia. Qed.

(** The point of index [k] is one of [acc] or the point a line gives when
    the counter is [k]. *)
Lemma pointsOfLines_nth (texts : list string) :
  forall acc k p,
    nth_error (pointsOfLines acc texts) k = Some p ->
    nth_error acc k = Some p
    \/ exists text, In text texts /\ parsedPoint text (countF k) = Some p.
Proof.
  induction texts as [|t rest IH]; intros acc k p Hk; [now left|].
  cbn [pointsOfLines] in Hk.
  destruct (parsedPoint t (countF (List.length acc))) as [p0|] eqn:Ep.
  - destruct (IH _ _ _ Hk) as [Hacc|(text & Hin & Hp)].
    + destruct (Nat.lt_ge_cases k (List.length acc)) as [Hlt|Hge].
      * left. now rewrite nth_error_app1 in Hacc.
      * rewrite nth_error_app2 in Hacc by assumption.
        destruct (k - List.length acc)%nat as [|j] eqn:Ej.
        -- cbn in Hacc. injection Hacc as ->.
           assert (k = List.length acc) by lia. subst k.
           right. exists t. split; [now left | assumption].
        -- destruct j; discriminate Hacc.
    + right. exists text. split; [now right | assumption].
  - destruct (IH _ _ _ Hk) as [Hacc|(text & Hin & Hp)]; [now left|].
    right. exists text. split; [now right | assumption].
Qed.

Lemma pointsOfLines1_nth (lines : list string) :
  forall acc k p,
    nth_error (pointsOfLines1 acc lines) k = Some p ->
    nth_error acc k = Some p
    \/ exists line, In line lines /\ takenPoint line (countF k) = Some p.
Proof.
  induction lines as [|t rest IH]; intros acc k p Hk; [now left|].
  cbn [pointsOfLines1] in Hk.
  destruct (takenPoint t (countF (List.length acc))) as [p0|] eqn:Ep.
  - destruct (IH _ _ _ Hk) as [Hacc|(text & Hin & Hp)].
    + destruct (Nat.lt_ge_cases k (List.length acc)) as [Hlt|Hge].
      * left. now rewrite nth_error_app1 in Hacc.
      * rewrite nth_error_app2 in Hacc by assumption.
        destruct (k - List.length acc)%nat as [|j] eqn:Ej.
        -- cbn in Hacc. injection Hacc as ->.
           assert (k = List.length acc) by lia. subst k.
           right. exists t. split; [now left | assumption].
        -- destruct j; discriminate Hacc.
    + right. exists text. split; [now right | assumption].
  - destruct (IH _ _ _ Hk) as [Hacc|(text & Hin & Hp)]; [now left|].
    right. exists text. split; [now right | assumption].
Qed.

(** What a line that gives a point looks like. *)
Lemma parsedPoint_inv (text : string) (c : float) (p : Point) :
  parsedPoint text c = Some p ->
  (exists f, Fields text = [f] /\ ParseFloat f = Some (Y p) /\ X p = c)
  \/ (exists f0 f1, Fields text = [f0; f1]
                    /\ ParseFloat f0 = Some (X p) /\ ParseFloat f1 = Some (Y p)).
Proof.
  unfold parsedPoint. destruct (isBlank text || isComment text); [discriminate|].
  rewrite parseLine_fields, Fields_TrimSpace.
  destruct (Fields text) as [|f0 [|f1 [|f2 fs]]]; try discriminate.
  - destruct (ParseFloat f0) as [y|] eqn:E0; [|discriminate].
    intros H. injection H as <-. left. exists f0. auto.
  - destruct (ParseFloat f0) as [x|] eqn:E0; [|discriminate].
    destruct (ParseFloat f1) as [y|] eqn:E1; [|discriminate].
    intros H. injection H as <-. right. exists f0, f1. auto.
Qed.

Lemma takenPoint_inv (line : string) (c : float) (p : Point) :
  takenPoint line c = Some p ->
  (exists f, Fields line = [f] /\ ParseFloat f = Some (Y p) /\ X p = c)
  \/ (exists f0 f1 fs, Fields line = f0 :: f1 :: fs
                       /\ ParseFloat f0 = Some (X p) /\ ParseFloat f1 = Some (Y p)).
Proof.
  unfold takenPoint.
  destruct (HasPrefix line "#" || HasPrefix line "%" || HasPrefix line "/");
    [discriminate|].
  destruct (Fields line) as [|f0 [|f1 fs]]; try discriminate.
  - destruct (ParseFloat f0) as [y|] eqn:E0; [|discriminate].
    intros H. injection H as <-. left. exists f0. auto.
  - destruct (ParseFloat f0) as [x|] eqn:E0; [|discriminate].
    destruct (ParseFloat f1) as [y|] eqn:E1; [|discriminate].
    intros H. injection H as <-. right. exists f0, f1, fs. auto.
Qed.

End Origins.



(** X8.  The number in a diagnostic of [readData] is one more than the
    number of points the lines before the malformed line gave, not the
    position of the line in the file; as long as the file has at most 2^53
    lines it is that number exactly. *)
Theorem second_program_numbers_by_points {lib : GoLib}
        (w : World) (filename : string) (texts : list string)
        (serr : option error) (ev : event) :
  readFile w filename = Scans texts serr ->
  In ev (trace (Prog2.readData w filename)) ->
  exists before text after e,
    texts = before ++ text :: after
    /\ parseFailure text (countF (List.length (pointsOfLines [] before))) = Some e
    /\ ev = LogPrintf "Skipping line %.0f in %s: %v"
              [ArgF (countF (List.length (pointsOfLines [] before)) + 1);
               ArgS filename; ArgE e]
    /\ ((Z.of_nat (List.length texts) <= 2 ^ 53)%Z ->
        (countF (List.length (pointsOfLines [] before)) + 1)%float
        = float64_of_int
            (Z.of_nat (List.length (pointsOfLines [] before)) + 1)).
Proof.
  intros Hfile. rewrite readData_value, Hfile. unfold trace. cbn [fst].
  rewrite in_map_iff. intros ([k e] & <- & Hin).
  destruct (failuresOfLines_position _ _ _ _ Hin) as (b & x & a & -> & -> & Hf).
  exists b, x, a, e. repeat split; try assumption.
  intros Hlen. pose proof (pointsOfLines_length b) as Hb.
  rewrite length_app in Hlen. cbn [List.length] in Hlen.
  change (countF ?n + 1)%float with (countF (S n)).
  rewrite countF_exact by lia. f_equal. lia.
Qed.

Lemma second_program_numbers_by_points_witness :
  exists before text after e,
    ["# c"; "oops"; ""; "7"; "1 2 3"] = before ++ text :: after
    /\ @parseFailure decimalOnly text
         (countF (List.length (@pointsOfLines decimalOnly [] before))) = Some e
    /\ LogPrintf "Skipping line %.0f in %s: %v"
         [ArgF 2; ArgS "data.txt"; ArgE (UnsupportedFormat 3)]
       = LogPrintf "Skipping line %.0f in %s: %v"
           [ArgF (countF (List.length (@pointsOfLines decimalOnly [] before)) + 1);
            ArgS "data.txt"; ArgE e]
    /\ ((Z.of_nat (List.length ["# c"; "oops"; ""; "7"; "1 2 3"]) <= 2 ^ 53)%Z ->
        (countF (List.length (@pointsOfLines decimalOnly [] before)) + 1)%float
        = float64_of_int
            (Z.of_nat (List.length (@pointsOfLines decimalOnly [] before)) + 1)).
Proof.
  apply (@second_program_numbers_by_points decimalOnly
           (quietWorld "" ["# c"; "oops"; ""; "7"; "1 2 3"]) "data.txt"
           ["# c"; "oops"; ""; "7"; "1 2 3"] None _ eq_refl).
  vm_compute. right. left. reflexivity.
Defined.

(** X9.  Every point ingestion returns comes from a line of the file: the
    point of index k is made of the one field of a line, its X being the
    counter at k, or of the first two fields of a line, which for
    [readData] has exactly two; the float parser accepted each field. *)
Theorem points_come_from_fields {lib : GoLib} :
  (forall w filename texts pts k p,
      readFile w filename = Scans texts None ->
      pointOutput (Prog2.readData w filename) = Some pts ->
      nth_error pts k = Some p ->
      exists text,
        In text texts
        /\ ((exists f, Fields text = [f] /\ ParseFloat f = Some (Y p)
                       /\ X p = countF k)
            \/ (exists f0 f1, Fields text = [f0; f1]
                              /\ ParseFloat f0 = Some (X p)
                              /\ ParseFloat f1 = Some (Y p))))
  /\ (forall w filename lines pts k p,
         readFile w filename = Scans lines None ->
         pointOutput (Prog1.readDataFromFile w filename) = Some pts ->
         nth_error pts k = Some p ->
         exists line,
           In line lines
           /\ ((exists f, Fields line = [f] /\ ParseFloat f = Some (Y p)
                          /\ X p = countF k)
               \/ (exists f0 f1 fs, Fields line = f0 :: f1 :: fs
                                    /\ ParseFloat f0 = Some (X p)
                                    /\ ParseFloat f1 = Some (Y p)))).
Proof.
  split.
  - intros w filename texts pts k p Hfile Hout Hk.
    unfold pointOutput in Hout. rewrite readData_value, Hfile in Hout.
    cbn in Hout. injection Hout as <-.
    destruct (pointsOfLines_nth _ _ _ _ Hk) as [Hnil|(text & Hin & Hp)].
    + destruct k; discriminate Hnil.
    + exists text. split; [assumption|]. now apply parsedPoint_inv.
  - intros w filename lines pts k p Hfile Hout Hk.
    unfold pointOutput in Hout. rewrite readDataFromFile_value, Hfile in Hout.
    cbn in Hout. injection Hout as <-.
    destruct (pointsOfLines1_nth _ _ _ _ Hk) as [Hnil|(text & Hin & Hp)].
    + destruct k; discriminate Hnil.
    + exists text. split; [assumption|]. now apply takenPoint_inv.
Qed.

Lemma points_come_from_fields_witness :
  exists text,
    In text ["3 4"; "oops"; "7"]
    /\ ((exists f, Fields text = [f]
                   /\ @ParseFloat decimalOnly f = Some (Y {| X := 1; Y := 7 |})
                   /\ X {| X := 1; Y := 7 |} = countF 1)
        \/ (exists f0 f1, Fields text = [f0; f1]
                          /\ @ParseFloat decimalOnly f0 = Some (X {| X := 1; Y := 7 |})
                          /\ @ParseFloat decimalOnly f1 = Some (Y {| X := 1; Y := 7 |}))).
Proof.
  apply (proj1 (@points_come_from_fields decimalOnly)
           (quietWorld "" ["3 4"; "oops"; "7"]) "data.txt"
           ["3 4"; "oops"; "7"] [{| X := 3; Y := 4 |}; {| X := 1; Y := 7 |}]
           1%nat {| X := 1; Y := 7 |}); reflexivity.
Defined.

(* ================================================================== *)
(** ** The whole process *)
(* ================================================================== *)

Section Process.
Context {lib : GoLib}.

(** Ingestion logs diagnostics only. *)
Lemma readData_logs (w : World) (filename : string) :
  exists l r, Prog2.readData w filename = (map (diagnostic filename) l, Done r).
Proof.
  rewrite readData_value.
  destruct (readFile w filename) as [e|texts serr].
  - now exists [], (Err (Errorf "open file: %w" [ArgE e])).
  - eauto.
Qed.

Lemma readDataFromFile_logs (w : World) (filename : string) :
  exists l r, Prog1.readDataFromFile w filename = (map diagnostic1 l, Done r).
Proof.
  rewrite readDataFromFile_value.
  destruct (readFile w filename) as [e|lines serr].
  - now exists [], (Err (Errorf "failed to open file: %v" [ArgE e])).
  - eauto.
Qed.



End Process.



(** Splits a trace into the diagnostics of ingestion and the events of the
    later stages, and settles membership in each. *)
Ltac in_trace H :=
  apply in_app_iff in H; destruct H as [H|H];
  [ exfalso; apply in_map_iff in H;
    let x := fresh in let Hx := fresh in
    destruct H as (x & Hx & _); discriminate Hx
  | cbn [In] in H; try contradiction ].

(** X11.  The message that the plot was saved names a file exactly when
    the plot was saved under that name: "Plot saved to: %s" in the second
    program, "Plot saved to file:" in the first. *)
Theorem confirmation_iff_saved {lib : GoLib} :
  (forall w cfg f,
      In (LogPrintf "Plot saved to: %s" [ArgS f]) (trace (Prog2.run w cfg)) <->
      exists wd ht pts, In (SavedPlot f wd ht pts) (trace (Prog2.run w cfg)))
  /\ (forall w filename config f,
         In (Println [ArgS "Plot saved to file:"; ArgS f])
            (trace (Prog1.plotDataToSixel w filename config)) <->
         exists wd ht pts,
           In (SavedPlot f wd ht pts)
              (trace (Prog1.plotDataToSixel w filename config))).
Proof.
  split.
  - intros w cfg f.
    destruct (readData_logs w (Prog2.Input cfg)) as (l & r & E).
    rewrite (run_after_readData _ _ _ _ E).
    unfold Prog2.createPlot, Prog2.createPlotters, Prog2.displaySixel, trace.
    destruct r as [pts|e0]; [destruct pts as [|p pts]|];
      cbn [bind List.length Nat.eqb]; crunch;
      (split;
       [ intros H; in_trace H;
         repeat (destruct H as [H|H]; try discriminate H; try contradiction);
         injection H as <-; eexists _, _, _; apply in_or_app; right;
         left; reflexivity
       | intros (wd & ht & ps & H); in_trace H;
         repeat (destruct H as [H|H]; try discriminate H; try contradiction);
         injection H as <- _ _ _; apply in_or_app; right; cbn [In]; auto ]).
  - intros w filename config f.
    destruct (readDataFromFile_logs w filename) as (l & r & E).
    rewrite (plot_after_readDataFromFile _ _ config _ _ E).
    unfold Prog1.createPlot, trace.
    destruct r as [pts|e0]; [destruct pts as [|p pts]|];
      cbn [bind List.length Nat.eqb]; crunch;
      (split;
       [ intros H; in_trace H;
         repeat (destruct H as [H|H]; try discriminate H; try contradiction);
         injection H as <-; eexists _, _, _; apply in_or_app; right;
         left; reflexivity
       | intros (wd & ht & ps & H); in_trace H;
         repeat (destruct H as [H|H]; try discriminate H; try contradiction);
         injection H as <- _ _ _; apply in_or_app; right; cbn [In]; auto ]).
Qed.

Lemma confirmation_iff_saved_witness :
  exists wd ht pts,
    In (SavedPlot "data_plot.png" wd ht pts)
       (trace (@Prog2.run decimalOnly (quietWorld "" ["1 2"])
                 {| Prog2.Width := 100; Prog2.Height := 50; Prog2.Scale := 1;
                    Prog2.Input := "data.txt"; Prog2.LineWidth := 1 |})).
Proof.
  apply (proj1 (proj1 (@confirmation_iff_saved decimalOnly)
                  (quietWorld "" ["1 2"])
                  {| Prog2.Width := 100; Prog2.Height := 50; Prog2.Scale := 1;
                     Prog2.Input := "data.txt"; Prog2.LineWidth := 1 |}
                  "data_plot.png")).
  vm_compute. right. left. reflexivity.
Defined.

(* ================================================================== *)
(** ** White space around a line *)
(* ================================================================== *)

Section Trimmed.
Context {lib : GoLib}.

Lemma dropSp_dropSp (l : list piece) : dropSp (dropSp l) = dropSp l.
Proof. induction l as [|[w|c] l IH]; cbn; auto. Qed.

Lemma trimPieces_twice (l : list piece) :
  trimPieces (trimPieces l) = trimPieces l.
Proof.
  assert (Hd : dropSp (trimPieces l) = trimPieces l).
  { destruct (allSp l) eqn:Ha.
    - now rewrite trimPieces_allSp.
    - destruct (trimPieces_head l Ha) as (c & m & ->). reflexivity. }
  unfold trimPieces at 1. rewrite Hd. unfold trimPieces.
  now rewrite rev_involutive, dropSp_dropSp.
Qed.

(** Trimming a trimmed line changes nothing. *)
Lemma TrimSpace_twice (s : string) : TrimSpace (TrimSpace s) = TrimSpace s.
Proof.
  unfold TrimSpace. fold (trimPieces (scan s)).
  rewrite (stable_trimPieces s).
  fold (trimPieces (trimPieces (scan s))). now rewrite trimPieces_twice.
Qed.

Lemma parsedPoint_trimmed (text : string) (c : float) :
  parsedPoint (TrimSpace text) c = parsedPoint text c.
Proof.
  unfold parsedPoint, isBlank, isComment. now rewrite TrimSpace_twice.
Qed.

Lemma parseFailure_trimmed (text : string) (c : float) :
  parseFailure (TrimSpace text) c = parseFailure text c.
Proof.
  unfold parseFailure, isBlank, isComment. now rewrite TrimSpace_twice.
Qed.

Lemma pointsOfLines_trimmed (texts : list string) :
  forall acc,
    pointsOfLines acc (map TrimSpace texts) = pointsOfLines acc texts
    /\ failuresOfLines acc (map TrimSpace texts) = failuresOfLines acc texts.
Proof.
  induction texts as [|t rest IH]; intros acc; [split; reflexivity|].
  cbn [map pointsOfLines failuresOfLines].
  rewrite parsedPoint_trimmed, parseFailure_trimmed.
  destruct (parsedPoint t (countF (List.length acc))) as [p|].
  - apply IH.
  - destruct (IH acc) as (-> & ->). split; reflexivity.
Qed.

End Trimmed.

(** X12.  White space at the start and at the end of a line plays no part
    in [readData]: a file and the file of its trimmed lines give the same
    points, the same diagnostics and the same error.  So a line and its
    trimmed form are treated alike by one turn of the loop. *)
Theorem surrounding_white_space_is_ignored {lib : GoLib} :
  (forall filename st text,
      Prog2.readLine filename st (TrimSpace text)
      = Prog2.readLine filename st text)
  /\ (forall w w' filename texts serr,
         readFile w filename = Scans texts serr ->
         readFile w' filename = Scans (map TrimSpace texts) serr ->
         Prog2.readData w' filename = Prog2.readData w filename).
Proof.
  split.
  - intros filename st text.
    now rewrite !readLine_value, parsedPoint_trimmed, parseFailure_trimmed.
  - intros w w' filename texts serr Hw Hw'.
    rewrite !readData_value, Hw, Hw'.
    now destruct (pointsOfLines_trimmed texts []) as (-> & ->).
Qed.

Lemma surrounding_white_space_is_ignored_witness :
  @Prog2.readData decimalOnly (quietWorld "" ["1 2"; "# c"; "x"]) "data.txt"
  = @Prog2.readData decimalOnly (quietWorld "" ["  1 2 "; "   # c"; " x  "])
      "data.txt".
Proof.
  exact (proj2 (@surrounding_white_space_is_ignored decimalOnly)
           (quietWorld "" ["  1 2 "; "   # c"; " x  "])
           (quietWorld "" ["1 2"; "# c"; "x"]) "data.txt"
           ["  1 2 "; "   # c"; " x  "] None eq_refl eq_refl).
Defined.

(* ================================================================== *)
(** ** Whole-number scales *)
(* ================================================================== *)

Section Scaling.

Local Open Scope Z_scope.

(** The two shapes of a normal form as one equation. *)
Lemma normal_scaled (z : Z) (m : positive) (e : Z) :
  -52 <= e ->
  (0 <= e /\ z = 2 ^ e * Zpos m) \/ (e <= 0 /\ Zpos m = 2 ^ (- e) * z) ->
  2 ^ 52 * z = 2 ^ (52 + e) * Zpos m.
Proof.
  intros He [(H0 & ->)|(H0 & ->)].
  - rewrite Z.pow_add_r by lia. ring.
  - replace 52 with ((52 + e) + (- e)) at 1 by lia.
    rewrite (Z.pow_add_r 2 (52 + e) (- e)) by lia. ring.
Qed.

(** The product of two whole numbers is exact as long as it is at most
    2^53. *)
Lemma float64_of_int_mul (a b : Z) :
  0 < a -> 0 < b -> a * b <= 2 ^ 53 ->
  (float64_of_int a * float64_of_int b)%float = float64_of_int (a * b).
Proof.
  intros Ha Hb Hab.
  assert (Ha' : a <= 2 ^ 53) by nia.
  assert (Hb' : b <= 2 ^ 53) by nia.
  destruct (normal_form a ltac:(lia)) as (ma & ea & Hma & Hea & Hra).
  destruct (normal_form b ltac:(lia)) as (mb & eb & Hmb & Heb & Hrb).
  assert (Hp : 0 < a * b) by (apply Z.mul_pos_pos; assumption).
  destruct (normal_form (a * b) ltac:(lia)) as (mp & ep & Hmp & Hep & Hrp).
  apply Prim2SF_inj. rewrite mul_spec.
  rewrite (Prim2SF_of_int a ma ea), (Prim2SF_of_int b mb eb),
    (Prim2SF_of_int (a * b) mp ep) by (assumption || lia || nia).
  unfold SF64mul, SFmul. cbn [xorb].
  apply normal_scaled in Hra; [|lia].
  apply normal_scaled in Hrb; [|lia].
  apply normal_scaled in Hrp; [|lia].
  pose proof (digits2_pos_bounds ma) as Ba. rewrite Hma in Ba.
  pose proof (digits2_pos_bounds mb) as Bb. rewrite Hmb in Bb.
  pose proof (digits2_pos_bounds mp) as Bp. rewrite Hmp in Bp.
  change (53 - 1) with 52 in Ba, Bb, Bp.
  assert (Hprod : 2 ^ (104 + ea + eb) * (Zpos ma * Zpos mb)
                  = 2 ^ (104 + ep) * Zpos mp).
  { replace (104 + ea + eb) with ((52 + ea) + (52 + eb)) by lia.
    replace (104 + ep) with (52 + (52 + ep)) by lia.
    rewrite (Z.pow_add_r 2 (52 + ea) (52 + eb)),
      (Z.pow_add_r 2 52 (52 + ep)) by lia.
    transitivity ((2 ^ 52 * a) * (2 ^ 52 * b)).
    - rewrite Hra, Hrb. ring.
    - transitivity (2 ^ 52 * (2 ^ 52 * (a * b))); [ring|].
      rewrite Hrp. ring. }
  assert (Hle : ea + eb <= ep).
  { destruct (Z.le_gt_cases (ea + eb) ep) as [|N]; [assumption|exfalso].
    replace (104 + ea + eb) with ((104 + ep) + (ea + eb - ep)) in Hprod by lia.
    rewrite (Z.pow_add_r 2 (104 + ep) (ea + eb - ep)) in Hprod by lia.
    rewrite <- Z.mul_assoc in Hprod.
    apply Z.mul_reg_l in Hprod;
      [|pose proof (Z.pow_pos_nonneg 2 (104 + ep) ltac:(lia) ltac:(lia)); lia].
    assert (2 ^ 1 <= 2 ^ (ea + eb - ep)) by (apply Z.pow_le_mono_r; lia).
    change (2 ^ 1) with 2 in *.
    assert (2 ^ 52 * 2 ^ 52 <= Zpos ma * Zpos mb) by nia.
    change (2 ^ 52 * 2 ^ 52) with (2 ^ 104) in *.
    assert (2 ^ 53 < 2 * 2 ^ 104) by (vm_compute; reflexivity).
    nia. }
  apply binary_round_aux_scaled; [assumption | lia | assumption |].
  replace (104 + ep) with ((104 + ea + eb) + (ep - (ea + eb))) in Hprod by lia.
  rewrite (Z.pow_add_r 2 (104 + ea + eb) (ep - (ea + eb))) in Hprod by lia.
  rewrite <- Z.mul_assoc in Hprod.
  apply Z.mul_reg_l in Hprod;
    [|pose proof (Z.pow_pos_nonneg 2 (104 + ea + eb) ltac:(lia) ltac:(lia)); lia].
  rewrite Pos2Z.inj_mul. exact Hprod.
Qed.

(** Converting a whole number up to 2^53 to [float64] and back gives the
    number. *)
Lemma int_of_float64_of_int (n : Z) :
  0 < n <= 2 ^ 53 -> int_of_float64 (float64_of_int n) = n.
Proof.
  intros Hn.
  destruct (normal_form n Hn) as (m & e & Hm & He & Hr).
  unfold int_of_float64. rewrite (Prim2SF_of_int n m e) by (assumption || lia).
  assert (Ev : (if 0 <=? e then Zpos m * 2 ^ e else Zpos m / 2 ^ (- e)) = n).
  { destruct (Z.leb_spec 0 e) as [H0|H0].
    - destruct Hr as [(_ & ->)|(H1 & E)]; [ring|].
      assert (e = 0) by lia. subst e. change (2 ^ (- 0)) with 1 in E.
      change (2 ^ 0) with 1. lia.
    - destruct Hr as [(H1 & _)|(_ & ->)]; [lia|].
      rewrite Z.mul_comm. apply Z.div_mul.
      pose proof (Z.pow_pos_nonneg 2 (- e) ltac:(lia) ltac:(lia)). lia. }
  rewrite Ev.
  assert (2 ^ 53 < 2 ^ 63) by (vm_compute; reflexivity).
  replace (- 2 ^ 63 <=? n) with true by (symmetry; apply Z.leb_le; lia).
  replace (n <? 2 ^ 63) with true by (symmetry; apply Z.ltb_lt; lia).
  reflexivity.
Qed.

(** A whole number from 2 on is not 1.0. *)
Lemma float64_of_int_not_1 (k : Z) :
  2 <= k <= 2 ^ 53 -> PrimFloat.eqb (float64_of_int k) 1 = false.
Proof.
  intros Hk.
  destruct (normal_form k ltac:(lia)) as (m & e & Hm & He & Hr).
  rewrite eqb_spec, (Prim2SF_of_int k m e) by (assumption || lia).
  change (Prim2SF 1) with (S754_finite false 4503599627370496 (-52)).
  apply normal_scaled in Hr; [|lia].
  unfold SFeqb, SFcompare.
  destruct (Z.compare_spec e (-52)) as [E|L|G]; try reflexivity.
  subst e. change (2 ^ (52 + -52)) with 1 in Hr.
  rewrite Pos.compare_cont_spec.
  destruct (Pos.compare_spec m 4503599627370496) as [Ec|Ec|Ec];
    try reflexivity.
  exfalso. assert (Em : Zpos m = 2 ^ 52) by (rewrite Ec; reflexivity).
  lia.
Qed.

End Scaling.

(** X13.  With a whole-number scale k of 2 or more and a width and a height
    whose products with k are at most 2^53, the encoder is given exactly
    width*k by height*k, in both programs: nothing is lost in the
    conversions to [float64] and back. *)
Theorem whole_number_scale_is_exact :
  (forall cfg k,
      Prog2.Scale cfg = float64_of_int k ->
      (2 <= k)%Z ->
      (0 < Prog2.Width cfg)%Z -> (0 < Prog2.Height cfg)%Z ->
      (Prog2.Width cfg * k <= 2 ^ 53)%Z -> (Prog2.Height cfg * k <= 2 ^ 53)%Z ->
      Prog2.encoderSize cfg = (Prog2.Width cfg * k, Prog2.Height cfg * k)%Z)
  /\ (forall config k,
         Prog1.scale config = float64_of_int k ->
         (2 <= k)%Z ->
         (0 < Prog1.width config)%Z -> (0 < Prog1.height config)%Z ->
         (Prog1.width config * k <= 2 ^ 53)%Z ->
         (Prog1.height config * k <= 2 ^ 53)%Z ->
         Prog1.encoderSize config
         = (Prog1.width config * k, Prog1.height config * k)%Z).
Proof.
  assert (B : forall a k : Z,
             (2 <= k)%Z -> (0 < a)%Z -> (a * k <= 2 ^ 53)%Z ->
             (k <= 2 ^ 53)%Z /\ (0 < a * k)%Z).
  { intros a k Hk Ha Hak. split; [|apply Z.mul_pos_pos; lia].
    apply Z.le_trans with (1 * k)%Z; [lia|].
    apply Z.le_trans with (a * k)%Z; [|assumption].
    apply Z.mul_le_mono_nonneg_r; lia. }
  split.
  - intros cfg k Hs Hk Hw Hh Hwk Hhk. unfold Prog2.encoderSize.
    destruct (B _ _ Hk Hw Hwk) as (Hk' & Pw).
    destruct (B _ _ Hk Hh Hhk) as (_ & Ph).
    rewrite Hs, float64_of_int_not_1 by lia. cbn [negb].
    rewrite !float64_of_int_mul by lia.
    rewrite !int_of_float64_of_int by lia. reflexivity.
  - intros config k Hs Hk Hw Hh Hwk Hhk. unfold Prog1.encoderSize.
    destruct (B _ _ Hk Hw Hwk) as (Hk' & Pw).
    destruct (B _ _ Hk Hh Hhk) as (_ & Ph).
    rewrite Hs, float64_of_int_not_1 by lia. cbn [negb].
    rewrite !float64_of_int_mul by lia.
    rewrite !int_of_float64_of_int by lia. cbv zeta.
    replace (0 <? Prog1.width config * k)%Z with true
      by (symmetry; apply Z.ltb_lt; assumption).
    replace (0 <? Prog1.height config * k)%Z with true
      by (symmetry; apply Z.ltb_lt; assumption).
    reflexivity.
Qed.

Lemma whole_number_scale_is_exact_witness :
  Prog2.encoderSize
    {| Prog2.Width := 640; Prog2.Height := 480; Prog2.Scale := 3;
       Prog2.Input := "data.txt"; Prog2.LineWidth := 1 |}
  = (1920, 1440)%Z.
Proof.
  exact (proj1 whole_number_scale_is_exact
           {| Prog2.Width := 640; Prog2.Height := 480; Prog2.Scale := 3;
              Prog2.Input := "data.txt"; Prog2.LineWidth := 1 |} 3%Z
           eq_refl ltac:(lia) ltac:(cbn; lia) ltac:(cbn; lia)
           ltac:(vm_compute; discriminate) ltac:(vm_compute; discriminate)).
Defined.
